(** * Autana Dojo: pattern engine, privilege registry and task queue

    A shallow embedding of three Python modules of the repository,

    - [core/pattern-engine/pattern_engine.py]      (modules [PatternEngine]
      and [PatternCatalog]),
    - [core/privilege-manager/privilege_system.py] (modules [Privilege]
      and [PrivilegeViews]),
    - [core/intelligence-layer/sakana_intelligence.py] (module [Intelligence]),

    followed by the properties of the specification that concern them
    (modules [PatternEngineFacts], [PrivilegeFacts], [SynthesisFacts] and
    [QueueFacts]) and by further properties of the code (modules
    [CatalogFacts], [RegistryFacts] and [LayerFacts]), over the
    vocabulary of the [...Props] modules.

    Conventions of the embedding.

    - Python numbers are idealised as exact rationals ([Q]); a decimal
      literal denotes its exact decimal value.  Comparisons are the
      boolean comparisons of [Q].
    - A SQLite table is a list of rows in rowid order, or a finite map
      keyed by its TEXT PRIMARY KEY when the order of the rows is never
      observed.  A statement that SQLite rejects raises, as [sqlite3]
      does: a key that is already taken, NULL in a NOT NULL column, an
      upsert whose conflict target is not declared unique.  What was
      committed before an exception stays in the store.
    - [datetime.now()] reads a clock kept in the world and advances it;
      [hashlib.md5], [random] and [json.dumps] are parameters (classes
      [Hashlib], [Datetime], [Random], [Json], [JsonDiscovery]).  A stored
      timestamp is the clock reading it was taken from: the ISO texts
      compare in the order of the readings.
    - [print] is left out. *)

From Stdlib Require Import QArith Qabs Qround Qpower ZArith Znumtheory Factorial List
  String Permutation Sorted Lia Lqa.
From stdpp Require Import gmap strings list fin_maps pretty sorting.
Close Scope Q_scope.
Open Scope nat_scope.

(** ** Rational arithmetic as Python uses it *)

Definition Qgtb (x y : Q) : bool := negb (Qle_bool x y).
Definition Qltb (x y : Q) : bool := negb (Qle_bool y x).

(** [sum(xs)]: starts from 0 and adds from left to right. *)
Definition Qsum (xs : list Q) : Q := fold_left Qplus xs 0%Q.

(** [len(xs)] used as a number. *)
Definition Qlen {A} (xs : list A) : Q := inject_Z (Z.of_nat (length xs)).

(** [int(x)]: truncation towards zero. *)
Definition int (x : Q) : Z := Z.quot (Qnum x) (Zpos (Qden x)).

(** * The Python runtime as the embedding sees it *)

(** The exceptions that the modelled code can raise. *)
Inductive exn :=
| OperationalError (msg : string)   (* sqlite3.OperationalError *)
| IntegrityError (msg : string)     (* sqlite3.IntegrityError *)
| ZeroDivisionError.

Inductive outcome (A : Type) :=
| Return (a : A)
| Raise (e : exn).
Arguments Return {A} a.
Arguments Raise {A} e.

(** What a call can read and change: the wall clock, the position in the
    stream of random draws, and the object it is a method of. *)
Record world (St : Type) := World {
  clock : nat;
  draws : nat;
  store : St
}.
Arguments World {St} clock draws store.
Arguments clock {St} w.
Arguments draws {St} w.
Arguments store {St} w.

(** A computation over a store [St]: it returns or raises, and leaves a
    world behind in both cases. *)
Definition M (St A : Type) : Type := world St -> outcome A * world St.

Definition ret {St A} (a : A) : M St A := fun w => (Return a, w).

Definition raise {St A} (e : exn) : M St A := fun w => (Raise e, w).

Definition bind {St A B} (c : M St A) (k : A -> M St B) : M St B :=
  fun w =>
    match c w with
    | (Return a, w') => k a w'
    | (Raise e, w') => (Raise e, w')
    end.

Notation "'let*' x ':=' c1 'in' c2" := (bind c1 (fun x => c2))
  (at level 10, x name, c1 at level 100, c2 at level 200).
Notation "c1 '>>' c2" := (bind c1 (fun _ => c2))
  (at level 100, c2 at level 200, right associativity).

Definition gets {St A} (f : St -> A) : M St A := fun w => (Return (f (store w)), w).

Definition modify {St} (f : St -> St) : M St unit :=
  fun w => (Return tt, World (clock w) (draws w) (f (store w))).

(** [datetime.now()]: the reading of the clock, which then moves on. *)
Definition now {St} : M St nat :=
  fun w => (Return (clock w), World (S (clock w)) (draws w) (store w)).

(** The index of the next random draw. *)
Definition next_draw {St} : M St nat :=
  fun w => (Return (draws w), World (clock w) (S (draws w)) (store w)).

(** Running a computation of a component inside the object that owns it. *)
Definition lift {St T A} (get : T -> St) (set : St -> T -> T) (c : M St A) : M T A :=
  fun w =>
    match c (World (clock w) (draws w) (get (store w))) with
    | (r, w') => (r, World (clock w') (draws w') (set (store w') (store w)))
    end.

(** [for x in xs: body(x)] *)
Fixpoint for_each {St A} (xs : list A) (body : A -> M St unit) : M St unit :=
  match xs with
  | [] => ret tt
  | x :: xs' => body x >> for_each xs' body
  end.

(** Library functions whose results the embedding does not compute. *)
Class Hashlib := {
  (* hashlib.md5(s.encode()).hexdigest() *)
  md5_hexdigest : string -> string
}.

Class Datetime := {
  (* the isoformat() text of a clock reading *)
  isoformat : nat -> string;
  (* the timestamp() of a clock reading, as formatted in an f-string *)
  timestamp_text : nat -> string
}.

Class Random := {
  (* random.random() at a given draw *)
  random_random : nat -> Q;
  (* the index picked by random.choice at a given draw *)
  random_index : nat -> nat;
  (* random.uniform(a, b) at a given draw *)
  random_uniform : nat -> Q -> Q -> Q
}.

(** [s[:n]] on text *)
Definition prefix_of (n : nat) (s : string) : string := String.substring 0 n s.

(** * The pattern engine ([pattern_engine.py]) *)

Module PatternEngine.

(** The [formula] entry of a discovery: fixed text, or the f-string
    ["a[n] = a[n-1] * {ratio}"] kept with its number. *)
Inductive formula_text :=
| Text (s : string)
| RatioFormula (ratio : Q).

(** An element of [discoveries]: a dict with these four keys. *)
Record discovery := {
  field : string;
  pattern : string;
  confidence : Q;
  formula : formula_text
}.

(** The dict returned by [discover_pattern]. *)
Record discover_result := {
  data_length : nat;
  discoveries : list discovery;
  best_pattern : option discovery
}.

(** [data[i]] for an index in range. *)
Definition item (data : list Q) (i : nat) : Q := nth i data 0%Q.

(** [_is_fibonacci_like]: the loop over [range(2, len(data))] returns
    [False] at the first index out of tolerance. *)
Definition fib_step_ok (data : list Q) (i : nat) : bool :=
  let expected := (item data (i - 1) + item data (i - 2))%Q in
  negb (Qgtb (Qabs (item data i - expected)) (1 # 1000)).

Definition _is_fibonacci_like (data : list Q) : bool :=
  if length data <? 3 then false
  else forallb (fib_step_ok data) (seq 2 (length data - 2)).

(** [len(set(remainders))] *)
Definition set_size (zs : list Z) : nat := length (nodup Z.eq_dec zs).

(** [_has_modular_pattern] *)
Definition _has_modular_pattern (data : list Q) : bool :=
  existsb
    (fun modulus =>
       let remainders := map (fun x => (int x mod modulus)%Z) data in
       set_size remainders <=? 2)
    [2; 3; 5; 7; 11]%Z.

(** [_detect_ratio_pattern] *)
Definition _detect_ratio_pattern (data : list Q) : option Q :=
  if length data <? 2 then None
  else
    let ratios :=
      flat_map
        (fun i => if Qeq_bool (item data (i - 1)) 0 then []
                  else [(item data i / item data (i - 1))%Q])
        (seq 1 (length data - 1)) in
    match ratios with
    | [] => None
    | _ =>
        let avg_ratio := (Qsum ratios / Qlen ratios)%Q in
        let variance :=
          (Qsum (map (fun r => (r - avg_ratio) ^ 2) ratios) / Qlen ratios)%Q in
        if Qltb variance (1 # 100) then Some avg_ratio else None
    end.

(** [_is_chaotic] *)
Definition _is_chaotic (data : list Q) : bool :=
  if length data <? 10 then false
  else
    let differences :=
      map (fun i => Qabs (item data (i + 1) - item data i))
          (seq 0 (length data - 1)) in
    let avg_diff := (Qsum differences / Qlen differences)%Q in
    let variance :=
      (Qsum (map (fun d => (d - avg_diff) ^ 2) differences)
       / Qlen differences)%Q in
    Qgtb variance (avg_diff * (1 # 2)).

Definition fibonacci_entry : discovery :=
  {| field := "arithmetic"; pattern := "fibonacci"; confidence := 95 # 100;
     formula := Text "a[n] = a[n-1] + a[n-2]" |}.

Definition modular_entry : discovery :=
  {| field := "arithmetic"; pattern := "modular"; confidence := 88 # 100;
     formula := Text "a[n] % m = constant" |}.

Definition ratio_entry (ratio : Q) : discovery :=
  {| field := "geometric"; pattern := "ratio"; confidence := 92 # 100;
     formula := RatioFormula ratio |}.

Definition chaotic_entry : discovery :=
  {| field := "chaos"; pattern := "chaotic"; confidence := 78 # 100;
     formula := Text "exhibits sensitive dependence" |}.

(** [field is None or field == f] *)
Definition field_selected (fld : option string) (f : string) : bool :=
  match fld with
  | None => true
  | Some g => String.eqb g f
  end.

(** [max(discoveries, key=lambda x: x["confidence"])]: the first entry of
    greatest confidence. *)
Fixpoint max_confidence (best : discovery) (ds : list discovery) : discovery :=
  match ds with
  | [] => best
  | d :: ds' =>
      if Qgtb (confidence d) (confidence best) then max_confidence d ds'
      else max_confidence best ds'
  end.

Definition best_of (ds : list discovery) : option discovery :=
  match ds with
  | [] => None
  | d :: ds' => Some (max_confidence d ds')
  end.

Definition arithmetic_discoveries (data : list Q) : list discovery :=
  (if _is_fibonacci_like data then [fibonacci_entry] else [])
  ++ (if _has_modular_pattern data then [modular_entry] else []).

(** [if ratio:] is false for [None] and for a ratio equal to zero. *)
Definition geometric_discoveries (data : list Q) : list discovery :=
  match _detect_ratio_pattern data with
  | Some ratio => if Qeq_bool ratio 0 then [] else [ratio_entry ratio]
  | None => []
  end.

Definition chaos_discoveries (data : list Q) : list discovery :=
  if _is_chaotic data then [chaotic_entry] else [].

Definition discover_pattern (data : list Q) (fld : option string)
  : discover_result :=
  let found :=
    (if field_selected fld "arithmetic" then arithmetic_discoveries data else [])
    ++ (if field_selected fld "geometric" then geometric_discoveries data else [])
    ++ (if field_selected fld "chaos" then chaos_discoveries data else []) in
  {| data_length := length data;
     discoveries := found;
     best_pattern := best_of found |}.

(** The "chaotic" sample of [test_dojo.py]. *)
Definition chaotic_sample : list Q :=
  [2 # 10; 584 # 1000; 8935 # 10000; 3525 # 10000; 8379 # 10000]%Q.

End PatternEngine.

(** * The pattern catalog ([pattern_engine.py], the classes of transforms) *)

Module PatternCatalog.
Import PatternEngine.

(** The exceptions of Python arithmetic that the catalog can raise. *)
Inductive arith_error :=
| ZeroDivision    (* ZeroDivisionError *)
| ValueError.     (* math.factorial of a negative number *)

Inductive computed (A : Type) :=
| Value (a : A)
| Error (e : arith_error).
Arguments Value {A} a.
Arguments Error {A} e.

Definition and_then {A B} (c : computed A) (k : A -> computed B) : computed B :=
  match c with
  | Value a => k a
  | Error e => Error e
  end.

(** [a / b] *)
Definition divide (a b : Q) : computed Q :=
  if Qeq_bool b 0 then Error ZeroDivision else Value (a / b)%Q.

(** [x % m] for an integer [m]: the remainder has the sign of [m]. *)
Definition modulo (x : Q) (m : Z) : computed Q :=
  if (m =? 0)%Z then Error ZeroDivision
  else Value (x - inject_Z m * inject_Z (Qfloor (x / inject_Z m)))%Q.


(** ** ArithmeticPatterns *)

Definition fibonacci_ratio (x : Q) : Q :=
  (x * (1618033988749895 # 1000000000000000))%Q.

Definition modular_synthesis (x : Q) (moduli : list Z) : computed Q :=
  fold_left
    (fun acc m =>
       and_then acc (fun result =>
       and_then (modulo x m) (fun remainder =>
       and_then (divide remainder (inject_Z m)) (fun term =>
       Value (result + term)%Q))))
    moduli (Value 0%Q).

Definition default_moduli : list Z := [3; 5; 7]%Z.

(** [harmonic_series]: [range(1, terms + 1)] is empty for [terms <= 0]. *)
Definition harmonic_series (x : Q) (terms : Z) : computed Q :=
  if Qeq_bool x 0 then Value 0%Q
  else
    fold_left
      (fun acc i =>
         and_then acc (fun total =>
         and_then (divide 1 (x + inject_Z (Z.of_nat i))) (fun term =>
         Value (total + term)%Q)))
      (seq 1 (Z.to_nat terms)) (Value 0%Q).

(** [prime_factorization_signature]: the inner loop [while n % d == 0],
    then the outer loop [while d * d <= n].  The loops run on fuel; the
    fuel given by [prime_factorization_signature] is never used up. *)
Fixpoint divide_out (fuel : nat) (d n : Z) (factors : list Z)
  : option (Z * list Z) :=
  match fuel with
  | O => None
  | S fuel' =>
      if (n mod d =? 0)%Z
      then divide_out fuel' d (n / d)%Z (factors ++ [d])
      else Some (n, factors)
  end.

Fixpoint trial_division (fuel : nat) (d n : Z) (factors : list Z)
  : option (list Z) :=
  match fuel with
  | O => None
  | S fuel' =>
      if (d * d <=? n)%Z
      then
        match divide_out (S (Z.to_nat n)) d n factors with
        | Some (n', factors') => trial_division fuel' (d + 1)%Z n' factors'
        | None => None
        end
      else Some (if (n >? 1)%Z then factors ++ [n] else factors)
  end.

Definition prime_factorization_signature (n : Z) : option (list Z) :=
  trial_division (S (Z.to_nat n)) 2 n [].

(** ** AlgebraicPatterns *)



(** ** GeometricPatterns *)

Definition sacred_geometry_ratios (x : Q) (ratio_type : string) : Q :=
  let ratio : Q :=
    (if String.eqb ratio_type "phi" then 1618033988749895 # 1000000000000000
     else if String.eqb ratio_type "sqrt2"
     then 14142135623730951 # 10000000000000000
     else if String.eqb ratio_type "sqrt3"
     then 17320508075688772 # 10000000000000000
     else if String.eqb ratio_type "pi" then 3141592653589793 # 1000000000000000
     else if String.eqb ratio_type "e" then 2718281828459045 # 1000000000000000
     else 1)%Q in
  (x * ratio)%Q.

(** ** CalculusPatterns *)



(** ** DiscretePatterns *)

(** [math.factorial] *)
Definition factorial (n : Z) : computed Z :=
  if (n <? 0)%Z then Error ValueError
  else Value (Z.of_nat (fact (Z.to_nat n))).

(** [combinatorial_pattern]; the divisor of [//] is a product of
    factorials. *)
Definition combinatorial_pattern (n k : Z) : computed Z :=
  if (k >? n)%Z then Value 0%Z
  else
    and_then (factorial n) (fun fn =>
    and_then (factorial k) (fun fk =>
    and_then (factorial (n - k)) (fun fnk =>
    Value (fn / (fk * fnk))%Z))).

(** ** StatisticalPatterns *)

Definition bayesian_update (prior likelihood evidence : Q) : Q :=
  if Qeq_bool evidence 0 then prior
  else (likelihood * prior / evidence)%Q.

(** ** InformationPatterns *)


(** ** ChaosPatterns *)




(** ** SakanaPatternEngine.compress_with_patterns *)

(** [json.dumps] of a discovery dict. *)
Class JsonDiscovery := {
  dumps_discovery : discovery -> string
}.



End PatternCatalog.

(** * Vocabulary for the properties of the pattern engine *)

Module PatternEngineProps.
Import PatternEngine.


(** A result reports the pattern kind [kind] with confidence [c]. *)
Definition reports (r : discover_result) (kind : string) (c : Q) : Prop :=
  exists d, In d (discoveries r) /\ pattern d = kind /\ confidence d = c.

End PatternEngineProps.

(** * Vocabulary for the properties of the catalog *)

Module PatternCatalogProps.
Import PatternEngine PatternCatalog.

(** The product of a list of integers. *)
Definition product (zs : list Z) : Z := fold_right Z.mul 1%Z zs.

(** Pascal's triangle. *)
Fixpoint pascal (n k : nat) : nat :=
  match n, k with
  | _, O => 1
  | O, S _ => 0
  | S n', S k' => pascal n' k' + pascal n' (S k')
  end.



(** The list [ratios] that [_detect_ratio_pattern] builds. *)
Definition ratios_of (data : list Q) : list Q :=
  flat_map
    (fun i => if Qeq_bool (item data (i - 1)) 0 then []
              else [(item data i / item data (i - 1))%Q])
    (seq 1 (length data - 1)).

(** A stand-in for [json.dumps], for running the model. *)
Definition sample_json_discovery : JsonDiscovery :=
  {| dumps_discovery := fun d => pattern d |}.

End PatternCatalogProps.

(** * The privilege registry ([privilege_system.py]) *)

Module Privilege.

Inductive PrivilegeLevel := TRAINING | DESKTOP | RESTRICTED.

(** [PrivilegeLevel.value] *)
Definition value (l : PrivilegeLevel) : string :=
  match l with
  | TRAINING => "training"
  | DESKTOP => "desktop"
  | RESTRICTED => "restricted"
  end.

Definition DESKTOP_PRIVILEGES : gmap string bool :=
  list_to_map
    [("file_system_read", true); ("file_system_write", true);
     ("network_access", true); ("system_commands", true);
     ("deployment", true); ("external_api", true);
     ("pattern_discovery", true); ("model_training", true);
     ("data_export", true)].

Definition TRAINING_PRIVILEGES : gmap string bool :=
  list_to_map
    [("file_system_read", false); ("file_system_write", false);
     ("network_access", false); ("system_commands", false);
     ("deployment", false); ("external_api", false);
     ("pattern_discovery", true); ("model_training", true);
     ("data_export", false)].

(** A row of [model_registry], without its key [model_id]. *)
Record model_row := {
  model_name : string;
  privilege_level : string;
  custom_privileges : option (gmap string bool);   (* JSON text or NULL *)
  created_at : nat;
  created_by : string;
  last_modified : nat;
  is_active : bool
}.

(** A row of [privilege_audit]. *)
Record audit_row := {
  audit_id : nat;
  audit_model_id : string;
  action : string;
  old_privilege : option string;
  new_privilege : string;
  reason : string;
  approved_by : string;
  timestamp : nat
}.

(** A row of [capability_usage]. *)
Record usage_row := {
  usage_id : nat;
  usage_model_id : string;
  capability : string;
  usage_count : nat;
  last_used : nat;
  blocked_attempts : nat
}.

(** The database behind a [ModelPrivilegeSystem].  [model_registry] has
    the TEXT PRIMARY KEY [model_id]; the two other tables are kept in
    rowid order. *)
Record priv_db := {
  model_registry : gmap string model_row;
  privilege_audit : list audit_row;
  capability_usage : list usage_row
}.

(** What [init_database] creates. *)
Definition empty_db : priv_db :=
  {| model_registry := ∅; privilege_audit := []; capability_usage := [] |}.

(** The column sets that [init_database] declares unique on
    [capability_usage]: its INTEGER PRIMARY KEY and nothing else. *)
Definition capability_usage_unique : list (list string) := [["usage_id"]].

Definition same_columns (xs ys : list string) : bool :=
  forallb (fun x => existsb (String.eqb x) ys) xs
  && forallb (fun y => existsb (String.eqb y) xs) ys.

(** SQLite prepares [INSERT ... ON CONFLICT(target) DO UPDATE] only when
    [target] is the column set of a PRIMARY KEY or UNIQUE constraint of
    the table. *)
Definition conflict_target_accepted (target : list string)
    (unique : list (list string)) : bool :=
  existsb (same_columns target) unique.

Definition with_registry (f : gmap string model_row -> gmap string model_row)
    (db : priv_db) : priv_db :=
  {| model_registry := f (model_registry db);
     privilege_audit := privilege_audit db;
     capability_usage := capability_usage db |}.

Definition with_audit (f : list audit_row -> list audit_row)
    (db : priv_db) : priv_db :=
  {| model_registry := model_registry db;
     privilege_audit := f (privilege_audit db);
     capability_usage := capability_usage db |}.

Definition with_usage (f : list usage_row -> list usage_row)
    (db : priv_db) : priv_db :=
  {| model_registry := model_registry db;
     privilege_audit := privilege_audit db;
     capability_usage := f (capability_usage db) |}.

(** [UPDATE model_registry SET privilege_level = ?, last_modified = ?] on
    one row. *)
Definition escalated (level : string) (t : nat) (r : model_row) : model_row :=
  {| model_name := model_name r;
     privilege_level := level;
     custom_privileges := custom_privileges r;
     created_at := created_at r;
     created_by := created_by r;
     last_modified := t;
     is_active := is_active r |}.

(** The upsert of [_track_capability_usage] on a row that conflicts. *)
Definition count_use (allowed : bool) (t : nat) (r : usage_row) : usage_row :=
  {| usage_id := usage_id r;
     usage_model_id := usage_model_id r;
     capability := capability r;
     usage_count := if allowed then S (usage_count r) else usage_count r;
     last_used := t;
     blocked_attempts :=
       if allowed then blocked_attempts r else S (blocked_attempts r) |}.

Definition same_pair (model_id cap : string) (r : usage_row) : bool :=
  String.eqb (usage_model_id r) model_id && String.eqb (capability r) cap.

(** What [INSERT ... ON CONFLICT(model_id, capability) DO UPDATE SET ...]
    does to the rows of [capability_usage] once SQLite has accepted the
    statement: the row of the pair is updated, or a row is inserted with
    the defaults of the columns that the INSERT leaves out. *)
Definition upsert_usage (model_id cap : string) (allowed : bool)
    (t_insert t_update : nat) (rows : list usage_row) : list usage_row :=
  if existsb (same_pair model_id cap) rows
  then map (fun r => if same_pair model_id cap r
                     then count_use allowed t_update r else r) rows
  else rows ++ [{| usage_id := S (length rows);
                   usage_model_id := model_id;
                   capability := cap;
                   usage_count := if allowed then 1 else 0;
                   last_used := t_insert;
                   blocked_attempts := if allowed then 0 else 1 |}].

Section Operations.
Context `{Hashlib} `{Datetime}.

(** [_generate_model_id] *)
Definition _generate_model_id (model_name : string) : M priv_db string :=
  let* t := now in
  ret (prefix_of 12 (md5_hexdigest (model_name +:+ "_" +:+ isoformat t))).

(** [_audit_action] *)
Definition _audit_action (model_id action : string)
    (old_privilege : option string) (new_privilege reason actor : string)
  : M priv_db unit :=
  let* t := now in
  modify (with_audit (fun rows =>
    rows ++ [{| audit_id := S (length rows);
                audit_model_id := model_id;
                action := action;
                old_privilege := old_privilege;
                new_privilege := new_privilege;
                reason := reason;
                approved_by := actor;
                timestamp := t |}])).

(** [register_model].  An empty [custom_privileges] dict is stored as
    NULL, like [None]. *)
Definition register_model (model_name : string)
    (privilege_level : PrivilegeLevel) (created_by : string)
    (custom_privileges : option (gmap string bool)) : M priv_db string :=
  let* model_id := _generate_model_id model_name in
  let* t_created := now in
  let* t_modified := now in
  let* taken := gets (fun db => model_registry db !! model_id) in
  match taken with
  | Some _ =>
      raise (IntegrityError "UNIQUE constraint failed: model_registry.model_id")
  | None =>
      modify (with_registry (insert model_id
        {| model_name := model_name;
           privilege_level := value privilege_level;
           custom_privileges :=
             match custom_privileges with
             | Some custom => if bool_decide (custom = ∅) then None else Some custom
             | None => None
             end;
           created_at := t_created;
           created_by := created_by;
           last_modified := t_modified;
           is_active := true |})) >>
      _audit_action model_id "REGISTERED" None (value privilege_level)
        ("Model registered by " +:+ created_by) created_by >>
      ret model_id
  end.

(** The base map of [get_model_privileges] for a stored level. *)
Definition base_privileges (level : string) : gmap string bool :=
  if String.eqb level (value DESKTOP) then DESKTOP_PRIVILEGES
  else if String.eqb level (value TRAINING) then TRAINING_PRIVILEGES
  else TRAINING_PRIVILEGES.

(** The capability map of a stored row: the base map of its level, then
    [privileges.update(custom)]. *)
Definition effective_privileges (r : model_row) : gmap string bool :=
  let privileges := base_privileges (privilege_level r) in
  match custom_privileges r with
  | Some custom => custom ∪ privileges
  | None => privileges
  end.

(** [get_model_privileges]: the row is selected with
    [WHERE model_id = ? AND is_active = 1]. *)
Definition get_model_privileges (model_id : string)
  : M priv_db (option (gmap string bool)) :=
  let* result := gets (fun db =>
    match model_registry db !! model_id with
    | Some r => if is_active r then Some r else None
    | None => None
    end) in
  match result with
  | None => ret None
  | Some r => ret (Some (effective_privileges r))
  end.

(** [_track_capability_usage]: both statements name the conflict target
    [(model_id, capability)], which SQLite checks when it prepares them;
    the two timestamps are computed before. *)
Definition _track_capability_usage (model_id cap : string) (allowed : bool)
  : M priv_db unit :=
  let* t_insert := now in
  let* t_update := now in
  if conflict_target_accepted ["model_id"; "capability"] capability_usage_unique
  then modify (with_usage (upsert_usage model_id cap allowed t_insert t_update))
  else
    raise (OperationalError
      "ON CONFLICT clause does not match any PRIMARY KEY or UNIQUE constraint").

(** [privileges.get(capability, False)] *)
Definition granted (privileges : gmap string bool) (cap : string) : bool :=
  default false (privileges !! cap).

(** [check_privilege]; [not privileges] holds for [None] and for an empty
    dict. *)
Definition check_privilege (model_id cap : string) : M priv_db bool :=
  let* privileges := get_model_privileges model_id in
  match privileges with
  | None => ret false
  | Some privileges =>
      if bool_decide (privileges = ∅) then ret false
      else
        _track_capability_usage model_id cap (granted privileges cap) >>
        ret (granted privileges cap)
  end.

(** [request_privilege_escalation] *)
Definition request_privilege_escalation (model_id : string)
    (new_level : PrivilegeLevel) (reason requested_by : string)
  : M priv_db string :=
  let* t := now in
  let request_id := "req_" +:+ model_id +:+ "_" +:+ timestamp_text t in
  _audit_action model_id "ESCALATION_REQUESTED" None (value new_level)
    reason requested_by >>
  ret request_id.

(** [approve_privilege_escalation]: the current level is selected with
    [WHERE model_id = ?] alone. *)
Definition approve_privilege_escalation (model_id : string)
    (new_level : PrivilegeLevel) (approved_by reason : string)
  : M priv_db bool :=
  let* result := gets (fun db => model_registry db !! model_id) in
  match result with
  | None => ret false
  | Some r =>
      let old_level := privilege_level r in
      let* t := now in
      modify (with_registry
        (alter (escalated (value new_level) t) model_id)) >>
      _audit_action model_id "ESCALATION_APPROVED" (Some old_level)
        (value new_level) reason approved_by >>
      ret true
  end.

End Operations.

End Privilege.


(** * The read-only views of the privilege registry ([privilege_system.py]) *)

Module PrivilegeViews.
Import Privilege.

(** The dict returned by [create_sandboxed_environment]; the constant
    entries ["environment"] and ["resource_limits"] are left out.  The
    two lists hold the keys of the capability map; their order is the
    order in which the map is enumerated. *)
Inductive sandbox :=
| SandboxError (error : string)
| Sandboxed (model_id : string)
            (allowed_operations blocked_operations : list string).

(** [create_sandboxed_environment]; [not privileges] holds for [None]
    and for an empty dict. *)
Definition create_sandboxed_environment (model_id : string)
  : M priv_db sandbox :=
  let* privileges := get_model_privileges model_id in
  match privileges with
  | None => ret (SandboxError "Model not found")
  | Some privileges =>
      if bool_decide (privileges = ∅) then ret (SandboxError "Model not found")
      else
        ret (Sandboxed model_id
               (map fst (List.filter (fun kv => snd kv)
                                     (map_to_list privileges)))
               (map fst (List.filter (fun kv => negb (snd kv))
                                     (map_to_list privileges))))
  end.

(** An entry of ["usage_statistics"]. *)
Record usage_stat := {
  stat_capability : string;
  stat_usage_count : nat;
  stat_blocked_attempts : nat;
  stat_last_used : nat
}.

(** An entry of ["recent_audit_events"]. *)
Record audit_event := {
  event_action : string;
  event_old_privilege : option string;
  event_new_privilege : string;
  event_reason : string;
  event_timestamp : nat
}.

Definition usage_stat_of (r : usage_row) : usage_stat :=
  {| stat_capability := capability r; stat_usage_count := usage_count r;
     stat_blocked_attempts := blocked_attempts r;
     stat_last_used := last_used r |}.

Definition audit_event_of (a : audit_row) : audit_event :=
  {| event_action := action a; event_old_privilege := old_privilege a;
     event_new_privilege := new_privilege a; event_reason := reason a;
     event_timestamp := timestamp a |}.

(** [ORDER BY timestamp DESC]: SQLite's sorter, which keeps rows of
    equal timestamp in the order of the scan. *)
Fixpoint insert_newest_first (x : audit_row) (sorted : list audit_row)
  : list audit_row :=
  match sorted with
  | [] => [x]
  | y :: sorted' =>
      if timestamp y <=? timestamp x then x :: y :: sorted'
      else y :: insert_newest_first x sorted'
  end.

Definition newest_first (rows : list audit_row) : list audit_row :=
  fold_right insert_newest_first [] rows.

(** The dict returned by [get_privilege_report]. *)
Inductive report :=
| ReportError (error : string)
| Report (model_id model_name privilege_level : string) (created_at : nat)
         (is_active : bool) (usage_statistics : list usage_stat)
         (recent_audit_events : list audit_event).

(** [get_privilege_report]: the model is selected with
    [WHERE model_id = ?] alone. *)
Definition get_privilege_report (model_id : string) : M priv_db report :=
  let* model_info := gets (fun db => model_registry db !! model_id) in
  match model_info with
  | None => ret (ReportError "Model not found")
  | Some r =>
      let* usage_stats := gets (fun db =>
        List.filter (fun u => String.eqb (usage_model_id u) model_id)
                    (capability_usage db)) in
      let* audit_history := gets (fun db =>
        firstn 10
          (newest_first
             (List.filter (fun a => String.eqb (audit_model_id a) model_id)
                          (privilege_audit db)))) in
      ret (Report model_id (model_name r) (privilege_level r) (created_at r)
             (is_active r)
             (map usage_stat_of usage_stats)
             (map audit_event_of audit_history))
  end.

End PrivilegeViews.
(** * Vocabulary for the properties of the privilege registry *)

Module PrivilegeProps.
Import Privilege.

(** Stand-ins for the library functions, for running the model. *)
Definition sample_hashlib : Hashlib := {| md5_hexdigest := fun s => s |}.
Definition sample_datetime : Datetime :=
  {| isoformat := fun t => pretty t; timestamp_text := fun t => pretty t |}.

(** The registered row of [model_id], if it is active. *)
Definition active_row (db : priv_db) (model_id : string) : option model_row :=
  match model_registry db !! model_id with
  | Some r => if is_active r then Some r else None
  | None => None
  end.

(** The message of the exception that SQLite raises for the upsert. *)
Definition upsert_rejected : exn :=
  OperationalError
    "ON CONFLICT clause does not match any PRIMARY KEY or UNIQUE constraint".

(** The audit rows of [model_id] with action [act]. *)
Definition audit_entries (db : priv_db) (model_id act : string) : list audit_row :=
  List.filter
    (fun a => String.eqb (audit_model_id a) model_id && String.eqb (action a) act)
    (privilege_audit db).

(** The table holds at most one row for each pair of a model and a
    capability. *)
Definition one_row_per_pair (rows : list usage_row) : Prop :=
  NoDup (map (fun r => (usage_model_id r, capability r)) rows).

Section Ids.
Context `{Hashlib} `{Datetime}.

(** The id that [_generate_model_id] computes at clock reading [t]. *)
Definition model_id_at (model_name : string) (t : nat) : string :=
  prefix_of 12 (md5_hexdigest (model_name +:+ "_" +:+ isoformat t)).

Definition registered_row (model_name : string) (level : PrivilegeLevel)
    (created_by : string) (t : nat) : model_row :=
  {| model_name := model_name; privilege_level := value level;
     custom_privileges := None; created_at := S t; created_by := created_by;
     last_modified := S (S t); is_active := true |}.

End Ids.

(** A registry holding one active TRAINING model, as [register_model]
    leaves it. *)
Definition one_training_model : world priv_db :=
  snd (@register_model sample_hashlib sample_datetime
         "pattern_learner" TRAINING "test_script" None (World 0 0 empty_db)).

(** A registry with one deactivated model and one usage counter. *)
Definition deactivated_model : model_row :=
  {| model_name := "retired"; privilege_level := "training";
     custom_privileges := None; created_at := 0; created_by := "admin";
     last_modified := 0; is_active := false |}.

Definition one_deactivated_model : world priv_db :=
  World 7 0
    {| model_registry := {[ "m1" := deactivated_model ]};
       privilege_audit := [];
       capability_usage :=
         [{| usage_id := 1; usage_model_id := "m1";
             capability := "model_training"; usage_count := 3;
             last_used := 5; blocked_attempts := 0 |}] |}.

End PrivilegeProps.


(** * Vocabulary for the histories of a privilege registry *)

Module RegistryProps.
Import Privilege PrivilegeProps PrivilegeViews.

(** A call of a public method of [ModelPrivilegeSystem]. *)
Inductive call :=
| RegisterModel (model_name : string) (level : PrivilegeLevel)
                (created_by : string) (custom : option (gmap string bool))
| CheckPrivilege (model_id cap : string)
| GetModelPrivileges (model_id : string)
| RequestEscalation (model_id : string) (new_level : PrivilegeLevel)
                    (reason requested_by : string)
| ApproveEscalation (model_id : string) (new_level : PrivilegeLevel)
                    (approved_by reason : string)
| CreateSandbox (model_id : string)
| GetReport (model_id : string).

Section Histories.
Context `{Hashlib} `{Datetime}.

(** The world that a call leaves behind, whether it returns or raises. *)
Definition run (c : call) (w : world priv_db) : world priv_db :=
  match c with
  | RegisterModel n l by_ custom => snd (register_model n l by_ custom w)
  | CheckPrivilege m cap => snd (check_privilege m cap w)
  | GetModelPrivileges m => snd (get_model_privileges m w)
  | RequestEscalation m l why by_ =>
      snd (request_privilege_escalation m l why by_ w)
  | ApproveEscalation m l by_ why =>
      snd (approve_privilege_escalation m l by_ why w)
  | CreateSandbox m => snd (create_sandboxed_environment m w)
  | GetReport m => snd (get_privilege_report m w)
  end.

Definition run_all (calls : list call) (w : world priv_db) : world priv_db :=
  fold_left (fun w c => run c w) calls w.

End Histories.

(** [w'] keeps what [w] had: the clock has not gone back, the usage
    counters are the same, the audit log has only grown at its end, and
    every registered model is still registered under the same name,
    creator, creation time and custom privileges, active or not as
    before. *)
Definition keeps (w w' : world priv_db) : Prop :=
  clock w <= clock w' /\
  capability_usage (store w') = capability_usage (store w) /\
  (exists added,
     privilege_audit (store w') = privilege_audit (store w) ++ added) /\
  forall model_id r,
    model_registry (store w) !! model_id = Some r ->
    exists r',
      model_registry (store w') !! model_id = Some r' /\
      is_active r' = is_active r /\ model_name r' = model_name r /\
      custom_privileges r' = custom_privileges r /\
      created_at r' = created_at r /\ created_by r' = created_by r.

(** The audit rows are numbered from 1 in row order, their timestamps
    grow strictly along the rows and lie before the clock; every
    registered model is active and its level is one of the three
    values of [PrivilegeLevel]. *)
Definition well_formed (w : world priv_db) : Prop :=
  map audit_id (privilege_audit (store w))
  = seq 1 (length (privilege_audit (store w))) /\
  StronglySorted lt (map timestamp (privilege_audit (store w))) /\
  Forall (fun a => timestamp a < clock w) (privilege_audit (store w)) /\
  forall model_id r,
    model_registry (store w) !! model_id = Some r ->
    is_active r = true /\ exists level, privilege_level r = value level.

(** The audit rows of [model_id], in row order. *)
Definition audit_of (model_id : string) (db : priv_db) : list audit_row :=
  List.filter (fun a => String.eqb (audit_model_id a) model_id)
              (privilege_audit db).

(** A registry holding one active DESKTOP model with a custom grant. *)
Definition custom_model : model_row :=
  {| model_name := "exporter"; privilege_level := "desktop";
     custom_privileges := Some {[ "data_export" := true ]};
     created_at := 0; created_by := "admin"; last_modified := 0;
     is_active := true |}.

Definition one_custom_model : world priv_db :=
  World 5 0
    {| model_registry := {[ "m2" := custom_model ]};
       privilege_audit := [];
       capability_usage := [] |}.

(** A new database after a registration, a request and an approval. *)
Definition escalation_history : list call :=
  [RegisterModel "pattern_learner" TRAINING "test_script" None;
   RequestEscalation "pattern_lear" DESKTOP "proven stable" "user";
   ApproveEscalation "pattern_lear" DESKTOP "admin" "passed all checks"].

Definition after_escalation : world priv_db :=
  @run_all sample_hashlib sample_datetime escalation_history
    (World 0 0 empty_db).

End RegistryProps.
(** * The intelligence layer ([sakana_intelligence.py]) *)

Module Intelligence.

(** A pattern dict.  ["name"] and ["type"] are read with [p[...]],
    ["confidence"] with [p.get("confidence", 0)]. *)
Record pattern := {
  name : string;
  type : string;
  confidence : option Q;
  formula : option string
}.

(** [p.get("confidence", 0)] *)
Definition conf (p : pattern) : Q := default 0%Q (confidence p).

Definition base_pattern (n t : string) (c : Q) : pattern :=
  {| name := n; type := t; confidence := Some c; formula := None |}.

Definition task_pattern (n t : string) (c : Q) (f : string) : pattern :=
  {| name := n; type := t; confidence := Some c; formula := Some f |}.

(** ** Pattern synthesis *)

(** The condition under [any(...)] in [_synthesize_patterns]. *)
Definition similar (new_pattern p : pattern) : bool :=
  String.eqb (name p) (name new_pattern)
  || (String.eqb (type p) (type new_pattern)
      && Qltb (Qabs (conf p - conf new_pattern)) (1 # 10)).

(** The body of the [enumerate] loop at one entry [p] of [combined]. *)
Definition upgrade (new_pattern p : pattern) : pattern :=
  if String.eqb (type p) (type new_pattern)
  then if Qgtb (conf new_pattern) (conf p) then new_pattern else p
  else p.

(** One round of the outer loop. *)
Definition synthesize_one (combined : list pattern) (new_pattern : pattern)
  : list pattern :=
  if negb (existsb (similar new_pattern) combined)
  then combined ++ [new_pattern]
  else map (upgrade new_pattern) combined.

(** [_synthesize_patterns], as a function of the contents of its two
    arguments. *)
Definition _synthesize_patterns (existing new : list pattern) : list pattern :=
  fold_left synthesize_one new existing.

(** *** The same method on list objects

    Python lists are objects: [heap] maps the address of a list to its
    contents, and the method receives and returns addresses. *)
Abbreviation heap := (gmap nat (list pattern)).







(** ** Specialists and tasks *)

(** An entry of [active_specialists]. *)
Record specialist := {
  id : string;
  spec_name : string;
  spec_domain : option string;
  patterns : list pattern;
  model_id : string;
  spec_privilege_level : Privilege.PrivilegeLevel
}.

Definition with_patterns (ps : list pattern) (s : specialist) : specialist :=
  {| id := id s; spec_name := spec_name s; spec_domain := spec_domain s;
     patterns := ps; model_id := model_id s;
     spec_privilege_level := spec_privilege_level s |}.

(** A row of [specialists], without its key [specialist_id]. *)
Record specialist_row := {
  row_name : string;
  row_domain : string;
  row_patterns : list pattern;          (* JSON text *)
  row_privilege_level : string;
  performance_score : Q;
  row_created_at : nat;
  last_active : nat;
  compression_ratio : Q;
  row_is_active : bool
}.

(** A row of [pattern_discoveries], without its key [discovery_id]. *)
Record discovery_row := {
  discovery_specialist_id : string;
  pattern_data : list pattern;          (* JSON text *)
  discovery_field : string;
  discovery_confidence : Q;
  discovered_at : nat
}.

(** The dict returned by [train_specialist_on_task]; the constant entries
    ["training_time"] and ["gpu_required"] are left out. *)
Inductive train_result :=
| ErrorResult (error : string)
| Trained (specialist_id : string) (patterns_discovered total_patterns : nat)
          (ratio : Q).

(** A row of [task_queue]. *)
Record task_row := {
  task_id : string;
  description : string;
  domain : option string;
  priority : string;
  status : string;
  assigned_to : option string;
  created_at : nat;
  completed_at : option nat;
  result : option train_result           (* JSON text or NULL *)
}.

(** [UPDATE task_queue SET assigned_to = ?, status = 'assigned'] on one
    row. *)
Definition assigned (specialist_id : string) (r : task_row) : task_row :=
  {| task_id := task_id r; description := description r;
     domain := domain r; priority := priority r;
     status := "assigned"; assigned_to := Some specialist_id;
     created_at := created_at r;
     completed_at := completed_at r; result := result r |}.

(** [UPDATE task_queue SET status = ?, assigned_to = ?, completed_at = ?,
    result = ?] on one row. *)
Definition finished (status_ specialist_id : string) (t : nat)
    (res : train_result) (r : task_row) : task_row :=
  {| task_id := task_id r; description := description r;
     domain := domain r; priority := priority r;
     status := status_; assigned_to := Some specialist_id;
     created_at := created_at r;
     completed_at := Some t; result := Some res |}.

(** The [task] dict that [process_queue] builds from a selected row. *)
Record task := {
  t_task_id : string;
  t_description : string;
  t_domain : option string;
  t_priority : string
}.

Definition task_of_row (r : task_row) : task :=
  {| t_task_id := task_id r; t_description := description r;
     t_domain := domain r; t_priority := priority r |}.

(** A [SakanaIntelligenceLayer]: its privilege system, the dict of active
    specialists in insertion order, and its three tables. *)
Record layer := {
  privilege_system : Privilege.priv_db;
  active_specialists : list (string * specialist);
  specialists : gmap string specialist_row;
  pattern_discoveries : gmap string discovery_row;
  task_queue : list task_row
}.

Definition with_privilege_system (p : Privilege.priv_db) (l : layer) : layer :=
  {| privilege_system := p; active_specialists := active_specialists l;
     specialists := specialists l; pattern_discoveries := pattern_discoveries l;
     task_queue := task_queue l |}.

Definition with_active
    (f : list (string * specialist) -> list (string * specialist))
    (l : layer) : layer :=
  {| privilege_system := privilege_system l;
     active_specialists := f (active_specialists l);
     specialists := specialists l; pattern_discoveries := pattern_discoveries l;
     task_queue := task_queue l |}.

Definition with_specialists
    (f : gmap string specialist_row -> gmap string specialist_row)
    (l : layer) : layer :=
  {| privilege_system := privilege_system l;
     active_specialists := active_specialists l;
     specialists := f (specialists l);
     pattern_discoveries := pattern_discoveries l;
     task_queue := task_queue l |}.

Definition with_discoveries
    (f : gmap string discovery_row -> gmap string discovery_row)
    (l : layer) : layer :=
  {| privilege_system := privilege_system l;
     active_specialists := active_specialists l;
     specialists := specialists l;
     pattern_discoveries := f (pattern_discoveries l);
     task_queue := task_queue l |}.

Definition with_tasks (f : list task_row -> list task_row) (l : layer) : layer :=
  {| privilege_system := privilege_system l;
     active_specialists := active_specialists l;
     specialists := specialists l; pattern_discoveries := pattern_discoveries l;
     task_queue := f (task_queue l) |}.

(** Calls into [self.privilege_system]. *)
Definition in_privilege_system {A} (c : M Privilege.priv_db A) : M layer A :=
  lift privilege_system with_privilege_system c.

(** [d.get(k)] and [d[k] = v] on a dict in insertion order. *)
Fixpoint dict_get {V} (k : string) (d : list (string * V)) : option V :=
  match d with
  | [] => None
  | (k', v) :: d' => if String.eqb k' k then Some v else dict_get k d'
  end.

Fixpoint dict_set {V} (k : string) (v : V) (d : list (string * V))
  : list (string * V) :=
  match d with
  | [] => [(k, v)]
  | (k', v') :: d' =>
      if String.eqb k' k then (k, v) :: d' else (k', v') :: dict_set k v d'
  end.

(** [a == b] on values that are [None] or text. *)
Definition option_string_eqb (a b : option string) : bool :=
  match a, b with
  | Some x, Some y => String.eqb x y
  | None, None => true
  | _, _ => false
  end.

(** [str(x)] inside an f-string. *)
Definition str_option (a : option string) : string :=
  match a with
  | Some x => x
  | None => "None"
  end.

(** [s.lower()] on ASCII letters. *)
Definition lower_ascii (c : Ascii.ascii) : Ascii.ascii :=
  let n := Ascii.nat_of_ascii c in
  if (65 <=? n) && (n <=? 90) then Ascii.ascii_of_nat (n + 32) else c.

Fixpoint lower (s : string) : string :=
  match s with
  | EmptyString => EmptyString
  | String c s' => String (lower_ascii c) (lower s')
  end.

(** [needle in s] *)
Definition contains (needle s : string) : bool :=
  match String.index 0 needle s with
  | Some _ => true
  | None => false
  end.

(** [_get_domain_patterns] *)
Definition _get_domain_patterns (domain : option string) : list pattern :=
  match domain with
  | Some d =>
      if String.eqb d "optimization" then
        [base_pattern "golden_ratio" "geometric" (9 # 10);
         base_pattern "harmonic_balance" "arithmetic" (85 # 100);
         base_pattern "gradient_free" "calculus" (8 # 10)]
      else if String.eqb d "prediction" then
        [base_pattern "fibonacci_projection" "arithmetic" (88 # 100);
         base_pattern "chaos_attractor" "chaos" (75 # 100);
         base_pattern "bayesian_update" "statistical" (92 # 100)]
      else if String.eqb d "classification" then
        [base_pattern "modular_signature" "arithmetic" (85 # 100);
         base_pattern "topological_invariant" "geometric" (78 # 100);
         base_pattern "entropy_measure" "information" (83 # 100)]
      else if String.eqb d "discovery" then
        [base_pattern "pattern_synthesis" "algebraic" (8 # 10);
         base_pattern "fractal_exploration" "geometric" (77 # 100);
         base_pattern "combinatorial_search" "discrete" (82 # 100)]
      else [base_pattern "general_pattern" "arithmetic" (7 # 10)]
  | None => [base_pattern "general_pattern" "arithmetic" (7 # 10)]
  end.

(** The key of [ORDER BY CASE priority WHEN 'high' THEN 1 WHEN 'medium'
    THEN 2 ELSE 3 END]. *)
Definition priority_rank (r : task_row) : nat :=
  if String.eqb (priority r) "high" then 1
  else if String.eqb (priority r) "medium" then 2
  else 3.

(** [ORDER BY] a key: SQLite's sorter, which keeps rows of equal key in
    the order of the scan. *)
Fixpoint insert_by {A} (key : A -> nat) (x : A) (sorted : list A) : list A :=
  match sorted with
  | [] => [x]
  | y :: sorted' =>
      if key x <=? key y then x :: y :: sorted'
      else y :: insert_by key x sorted'
  end.

Definition order_by {A} (key : A -> nat) (rows : list A) : list A :=
  fold_right (insert_by key) [] rows.

(** The SELECT of [process_queue]. *)
Definition select_pending (rows : list task_row) : list task_row :=
  order_by priority_rank
    (List.filter (fun r => String.eqb (status r) "pending") rows).

(** [json.dumps] of a pattern list. *)
Class Json := {
  dumps : list pattern -> string
}.

Section Operations.
Context `{Hashlib} `{Datetime} `{Random} `{Json}.

(** [_generate_id] *)
Definition _generate_id (seed : string) : M layer string :=
  let* t := now in
  ret (prefix_of 16 (md5_hexdigest (seed +:+ "_" +:+ isoformat t))).

(** [create_specialist].  The privilege identity is registered before the
    row is inserted; [domain] is declared NOT NULL. *)
Definition create_specialist (name : string) (domain : option string)
    (privilege_level : Privilege.PrivilegeLevel) : M layer string :=
  let* specialist_id := _generate_id name in
  let* model_id :=
    in_privilege_system
      (Privilege.register_model name privilege_level "sakana_intelligence" None) in
  let base_patterns := _get_domain_patterns domain in
  let* t_created := now in
  let* t_active := now in
  match domain with
  | None => raise (IntegrityError "NOT NULL constraint failed: specialists.domain")
  | Some d =>
      let* taken := gets (fun l => specialists l !! specialist_id) in
      match taken with
      | Some _ =>
          raise (IntegrityError
                   "UNIQUE constraint failed: specialists.specialist_id")
      | None =>
          modify (with_specialists (insert specialist_id
            {| row_name := name; row_domain := d;
               row_patterns := base_patterns;
               row_privilege_level := Privilege.value privilege_level;
               performance_score := 0;
               row_created_at := t_created; last_active := t_active;
               compression_ratio := 1000;
               row_is_active := true |})) >>
          modify (with_active (dict_set specialist_id
            {| id := specialist_id; spec_name := name; spec_domain := domain;
               patterns := base_patterns; model_id := model_id;
               spec_privilege_level := privilege_level |})) >>
          ret specialist_id
      end
  end.

(** [_discover_task_patterns] *)
Definition _discover_task_patterns (t : task) (domain : option string)
  : M layer (list pattern) :=
  let description := lower (t_description t) in
  let patterns :=
    (if contains "optimize" description || contains "maximize" description
     then [task_pattern "optimization_pattern" "calculus" (88 # 100)
             "local_maxima_detection"] else [])
    ++ (if contains "predict" description || contains "forecast" description
        then [task_pattern "time_series_pattern" "statistical" (85 # 100)
                "trend_extraction"] else [])
    ++ (if contains "classify" description || contains "categorize" description
        then [task_pattern "clustering_pattern" "discrete" (82 # 100)
                "distance_minimization"] else []) in
  let* n := next_draw in
  if Qgtb (random_random n) (7 # 10) then
    let* n_choice := next_draw in
    let* n_uniform := next_draw in
    ret (patterns ++
         [task_pattern ("novel_pattern_" +:+ pretty (length patterns))
            (nth (random_index n_choice mod 3)
                 ["arithmetic"; "geometric"; "algebraic"] "arithmetic")
            (random_uniform n_uniform (6 # 10) (9 # 10))
            "discovered_through_exploration"])
  else ret patterns.

(** [train_specialist_on_task].  The INSERT and the UPDATE are committed
    together; [pattern_discoveries.field] is declared NOT NULL. *)
Definition train_specialist_on_task (specialist_id : string) (t : task)
  : M layer train_result :=
  let* found := gets (fun l => dict_get specialist_id (active_specialists l)) in
  match found with
  | None => ret (ErrorResult "Specialist not found")
  | Some specialist =>
      let* can_train :=
        in_privilege_system
          (Privilege.check_privilege (model_id specialist) "model_training") in
      if negb can_train
      then ret (ErrorResult "Specialist lacks training privileges")
      else
        let* task_patterns := _discover_task_patterns t (spec_domain specialist) in
        let enhanced_patterns :=
          _synthesize_patterns (patterns specialist) task_patterns in
        modify (with_active
          (dict_set specialist_id (with_patterns enhanced_patterns specialist))) >>
        let pattern_params := String.length (dumps enhanced_patterns) in
        if pattern_params =? 0 then raise ZeroDivisionError
        else
          let ratio := (1000000 / inject_Z (Z.of_nat pattern_params))%Q in
          let* discovery_id :=
            _generate_id (specialist_id +:+ "_" +:+ t_task_id t) in
          let* t_found := now in
          let* taken := gets (fun l => pattern_discoveries l !! discovery_id) in
          match spec_domain specialist, taken with
          | None, _ =>
              raise (IntegrityError
                       "NOT NULL constraint failed: pattern_discoveries.field")
          | Some _, Some _ =>
              raise (IntegrityError
                       "UNIQUE constraint failed: pattern_discoveries.discovery_id")
          | Some d, None =>
              let* t_active := now in
              modify (with_discoveries (insert discovery_id
                {| discovery_specialist_id := specialist_id;
                   pattern_data := task_patterns;
                   discovery_field := d;
                   discovery_confidence := 85 # 100;
                   discovered_at := t_found |})) >>
              modify (with_specialists (alter
                (fun r =>
                   {| row_name := row_name r; row_domain := row_domain r;
                      row_patterns := row_patterns r;
                      row_privilege_level := row_privilege_level r;
                      performance_score := performance_score r;
                      row_created_at := row_created_at r;
                      last_active := t_active;
                      compression_ratio := ratio;
                      row_is_active := row_is_active r |})
                specialist_id)) >>
              ret (Trained specialist_id (length task_patterns)
                     (length enhanced_patterns) ratio)
          end
  end.

(** [_find_best_specialist]: [max] keeps the first candidate of greatest
    pattern count. *)
Fixpoint most_patterns (best : string * specialist)
    (candidates : list (string * specialist)) : string * specialist :=
  match candidates with
  | [] => best
  | c :: candidates' =>
      if length (patterns (snd best)) <? length (patterns (snd c))
      then most_patterns c candidates'
      else most_patterns best candidates'
  end.

Definition _find_best_specialist (domain : string) : M layer (option string) :=
  let* candidates := gets (fun l =>
    List.filter (fun e => option_string_eqb (spec_domain (snd e)) (Some domain))
                (active_specialists l)) in
  match candidates with
  | [] => ret None
  | c :: candidates' => ret (Some (fst (most_patterns c candidates')))
  end.

(** [_auto_assign_task]; [if domain] and [if specialist_id] are false for
    [None] and for empty text. *)
Definition _auto_assign_task (task_id_ : string) : M layer unit :=
  let* found := gets (fun l =>
    List.find (fun r => String.eqb (task_id r) task_id_) (task_queue l)) in
  match found with
  | None => ret tt
  | Some r =>
      let* specialist_id :=
        match domain r with
        | Some d => if String.eqb d "" then ret None else _find_best_specialist d
        | None => ret None
        end in
      match specialist_id with
      | Some sid =>
          if String.eqb sid "" then ret tt
          else
            modify (with_tasks (map (fun r =>
              if String.eqb (task_id r) task_id_
              then assigned sid r else r)))
      | None => ret tt
      end
  end.

(** [add_task_to_queue] *)
Definition add_task_to_queue (description : string) (domain : option string)
    (priority : string) : M layer string :=
  let* task_id_ := _generate_id description in
  let* t := now in
  let* taken := gets (fun l =>
    List.find (fun r => String.eqb (task_id r) task_id_) (task_queue l)) in
  match taken with
  | Some _ => raise (IntegrityError "UNIQUE constraint failed: task_queue.task_id")
  | None =>
      modify (with_tasks (fun rows => rows ++
        [{| task_id := task_id_; description := description; domain := domain;
            priority := priority; status := "pending"; assigned_to := None;
            created_at := t; completed_at := None; result := None |}])) >>
      _auto_assign_task task_id_ >>
      ret task_id_
  end.

(** [_update_task_status] *)
Definition _update_task_status (task_id_ status_ specialist_id : string)
    (res : train_result) : M layer unit :=
  let* t := now in
  modify (with_tasks (map (fun r =>
    if String.eqb (task_id r) task_id_
    then finished status_ specialist_id t res r else r))).

(** [_find_or_create_specialist]; the key ["domain"] is always present in
    [task], so [task.get("domain", "general")] is the stored value. *)
Definition _find_or_create_specialist (t : task) : M layer string :=
  let* active := gets active_specialists in
  match List.find (fun e => option_string_eqb (spec_domain (snd e)) (t_domain t))
                  active with
  | Some (spec_id, _) => ret spec_id
  | None =>
      let name := str_option (t_domain t) +:+ "_specialist_"
                  +:+ pretty (length active) in
      create_specialist name (t_domain t) Privilege.TRAINING
  end.

(** The body of the loop of [process_queue]. *)
Definition process_task (r : task_row) : M layer unit :=
  let t := task_of_row r in
  let* specialist_id := _find_or_create_specialist t in
  let* res := train_specialist_on_task specialist_id t in
  _update_task_status (t_task_id t) "completed" specialist_id res.

(** [process_queue] *)
Definition process_queue : M layer unit :=
  let* tasks := gets (fun l => select_pending (task_queue l)) in
  for_each tasks process_task.

End Operations.

End Intelligence.

(** * Vocabulary for the properties of the intelligence layer *)

Module IntelligenceProps.
Import Intelligence.




(** The synthesis rule as the specification words it: a duplicate is not
    appended, and when the incoming confidence is strictly greater the
    first entry of the same field is replaced in place. *)
Fixpoint replace_first_of_field (new_pattern : pattern) (combined : list pattern)
  : list pattern :=
  match combined with
  | [] => []
  | p :: combined' =>
      if String.eqb (type p) (type new_pattern)
      then (if Qgtb (conf new_pattern) (conf p) then new_pattern else p)
           :: combined'
      else p :: replace_first_of_field new_pattern combined'
  end.

Definition spec_synthesize_one (combined : list pattern) (new_pattern : pattern)
  : list pattern :=
  if existsb (similar new_pattern) combined
  then replace_first_of_field new_pattern combined
  else combined ++ [new_pattern].

Definition spec_synthesize (existing incoming : list pattern) : list pattern :=
  fold_left spec_synthesize_one incoming existing.

Definition pat_hi : pattern := base_pattern "hi" "arithmetic" (9 # 10).
Definition pat_lo : pattern := base_pattern "lo" "arithmetic" (5 # 10).



(** ** The task queue *)

(** Stand-ins for the library functions, for running the model. *)
Definition sample_random : Random :=
  {| random_random := fun _ => 0%Q;
     random_index := fun _ => 0;
     random_uniform := fun _ a _ => a |}.
Definition sample_json : Json := {| dumps := fun _ => "[]" |}.






(** A layer whose only specialist has a deactivated privilege identity,
    with two pending tasks of its domain. *)
Definition pending_row (id_ text prio : string) (t : nat) : task_row :=
  {| task_id := id_; description := text; domain := Some "optimization";
     priority := prio; status := "pending"; assigned_to := None;
     created_at := t; completed_at := None; result := None |}.

Definition retired_specialist : specialist :=
  {| id := "s1"; spec_name := "optimizer"; spec_domain := Some "optimization";
     patterns := _get_domain_patterns (Some "optimization");
     model_id := "m1"; spec_privilege_level := Privilege.TRAINING |}.

Definition denied_world : world layer :=
  World 10 0
    {| privilege_system := store PrivilegeProps.one_deactivated_model;
       active_specialists := [("s1", retired_specialist)];
       specialists := ∅;
       pattern_discoveries := ∅;
       task_queue := [pending_row "t1" "Optimize stock levels" "medium" 8;
                      pending_row "t2" "Optimize routes" "high" 9] |}.

End IntelligenceProps.


(** * Vocabulary for the properties of specialists *)

Module LayerProps.
Import Intelligence IntelligenceProps.

Section Ids.
Context `{Hashlib} `{Datetime}.

(** The id that [_generate_id] computes at clock reading [t]. *)
Definition id_at (seed : string) (t : nat) : string :=
  prefix_of 16 (md5_hexdigest (seed +:+ "_" +:+ isoformat t)).

(** The privilege registry after [create_specialist] has registered
    the identity of a specialist at clock reading [t]. *)
Definition with_identity (name : string) (level : Privilege.PrivilegeLevel)
    (t : nat) (db : Privilege.priv_db) : Privilege.priv_db :=
  {| Privilege.model_registry :=
       <[PrivilegeProps.model_id_at name t :=
           PrivilegeProps.registered_row name level "sakana_intelligence" t]>
         (Privilege.model_registry db);
     Privilege.privilege_audit :=
       Privilege.privilege_audit db ++
       [{| Privilege.audit_id := S (length (Privilege.privilege_audit db));
           Privilege.audit_model_id := PrivilegeProps.model_id_at name t;
           Privilege.action := "REGISTERED";
           Privilege.old_privilege := None;
           Privilege.new_privilege := Privilege.value level;
           Privilege.reason := "Model registered by sakana_intelligence";
           Privilege.approved_by := "sakana_intelligence";
           Privilege.timestamp := 3 + t |}];
     Privilege.capability_usage := Privilege.capability_usage db |}.

End Ids.

(** The active specialists of a domain, in insertion order. *)
Definition of_domain (d : string) (active : list (string * specialist))
  : list (string * specialist) :=
  List.filter (fun e => option_string_eqb (spec_domain (snd e)) (Some d)) active.

(** The tables and the dict of specialists of two layers agree; their
    privilege systems may differ. *)
Definition same_tables (l l' : layer) : Prop :=
  active_specialists l' = active_specialists l /\
  specialists l' = specialists l /\
  pattern_discoveries l' = pattern_discoveries l /\
  task_queue l' = task_queue l.

(** [best] stands at index [i] of [candidates], no candidate has more
    patterns, and the candidates before it have fewer. *)
Definition first_greatest (candidates : list (string * specialist)) (i : nat)
    (best : string * specialist) : Prop :=
  candidates !! i = Some best /\
  forall j e, candidates !! j = Some e ->
    length (patterns (snd e)) <= length (patterns (snd best)) /\
    (j < i -> length (patterns (snd e)) < length (patterns (snd best))).

(** The rows whose id is not in [ids] are the same, at the same place,
    in [rows'] as in [rows]. *)
Definition untouched (ids : list string) (rows rows' : list task_row) : Prop :=
  forall i row, rows !! i = Some row -> ~ In (task_id row) ids ->
                rows' !! i = Some row.

(** A pending row without a domain. *)
Definition undirected_row : task_row :=
  {| task_id := "t0"; description := "Predict demand"; domain := None;
     priority := "high"; status := "pending"; assigned_to := None;
     created_at := 7; completed_at := None; result := None |}.

(** An empty layer. *)
Definition new_layer : layer :=
  {| privilege_system := Privilege.empty_db; active_specialists := [];
     specialists := ∅; pattern_discoveries := ∅; task_queue := [] |}.

Definition undirected_world : world layer :=
  World 10 0
    {| privilege_system := Privilege.empty_db; active_specialists := [];
       specialists := ∅; pattern_discoveries := ∅;
       task_queue := [undirected_row] |}.

(** A layer with one task already assigned and one pending. *)
Definition half_assigned_world : world layer :=
  World 10 0
    {| privilege_system := store PrivilegeProps.one_deactivated_model;
       active_specialists := [("s1", retired_specialist)];
       specialists := ∅;
       pattern_discoveries := ∅;
       task_queue :=
         [assigned "s1" (pending_row "t1" "Optimize stock levels" "high" 8);
          pending_row "t2" "Optimize routes" "medium" 9] |}.

End LayerProps.
(** * Facts about the rational comparisons *)



Lemma Qltb_true (x y : Q) : Qltb x y = true <-> (x < y)%Q.
Proof.
  unfold Qltb. rewrite negb_true_iff. split.
  - intros H. apply Qnot_le_lt. intros Hle. apply Qle_bool_iff in Hle. congruence.
  - intros H. destruct (Qle_bool y x) eqn:E; [|reflexivity].
    apply Qle_bool_iff in E. exfalso. exact (Qlt_not_le _ _ H E).
Qed.

Lemma Qltb_irrefl (x : Q) : Qltb x x = false.
Proof.
  destruct (Qltb x x) eqn:E; [|reflexivity].
  apply Qltb_true in E. exfalso. exact (Qlt_irrefl _ E).
Qed.

(** ** Properties of the detectors *)

Module PatternEngineFacts.
Import PatternEngine PatternEngineProps.



Lemma short_not_chaotic (data : list Q) :
  length data < 10 -> _is_chaotic data = false.
Proof.
  intros H. unfold _is_chaotic.
  destruct (Nat.ltb_spec (length data) 10); [reflexivity | lia].
Qed.



Lemma discover_chaotic_sample_eq :
  discover_pattern chaotic_sample None =
    {| data_length := 5;
       discoveries := [modular_entry];
       best_pattern := Some modular_entry |}.
Proof. vm_compute. reflexivity. Qed.

(** C3 (as amended): on the five-element sample of the test script the
    chaos detector does not fire, because it requires at least ten
    elements; [discover_pattern] reports exactly one pattern there, the
    modular one with confidence 0.88, which is also the best pattern. *)
Theorem discover_chaotic_sample :
  length chaotic_sample < 10 /\
  _is_chaotic chaotic_sample = false /\
  discover_pattern chaotic_sample None =
    {| data_length := 5;
       discoveries := [modular_entry];
       best_pattern := Some modular_entry |} /\
  reports (discover_pattern chaotic_sample None) "modular" (88 # 100).
Proof.
  assert (Hshort : length chaotic_sample < 10) by (cbn; lia).
  split_and!.
  - exact Hshort.
  - apply short_not_chaotic, Hshort.
  - apply discover_chaotic_sample_eq.
  - exists modular_entry. rewrite discover_chaotic_sample_eq. cbn. auto.
Qed.

(** C3 as the specification states it fails: no chaos pattern of
    confidence 0.78 is reported for the sample. *)
Lemma discover_chaotic_sample_no_chaos :
  ~ reports (discover_pattern chaotic_sample None) "chaotic" (78 # 100).
Proof.
  intros (d & Hin & Hkind & _).
  rewrite discover_chaotic_sample_eq in Hin.
  cbn in Hin. destruct Hin as [<- | []]. discriminate Hkind.
Qed.



End PatternEngineFacts.

(** * Properties of the privilege registry *)

Module PrivilegeFacts.
Import Privilege PrivilegeProps.

Lemma get_model_privileges_eq (model_id : string) (w : world priv_db) :
  get_model_privileges model_id w
  = (Return (effective_privileges <$> active_row (store w) model_id), w).
Proof.
  unfold get_model_privileges, active_row, bind, gets, ret.
  destruct (model_registry (store w) !! model_id) as [r |]; [| reflexivity].
  destruct (is_active r); reflexivity.
Qed.

(** Every base map has the nine capabilities, so an effective map is
    never empty. *)
Lemma base_privileges_model_training (level : string) :
  base_privileges level !! "model_training" = Some true.
Proof.
  unfold base_privileges.
  destruct (String.eqb level (value DESKTOP)); [vm_compute; reflexivity |].
  destruct (String.eqb level (value TRAINING)); vm_compute; reflexivity.
Qed.

Lemma effective_privileges_nonempty (r : model_row) :
  effective_privileges r <> ∅.
Proof.
  intros Hempty.
  assert (Hbase : is_Some (effective_privileges r !! "model_training")).
  { unfold effective_privileges. destruct (custom_privileges r) as [custom |].
    - apply lookup_union_is_Some. right.
      rewrite base_privileges_model_training. eauto.
    - rewrite base_privileges_model_training. eauto. }
  rewrite Hempty, lookup_empty in Hbase. destruct Hbase as [? Hbase]. discriminate.
Qed.

(** The effective map is the base map of the level, overridden key by
    key by the custom privileges. *)
Lemma granted_effective (r : model_row) (cap : string) :
  granted (effective_privileges r) cap
  = match custom_privileges r with
    | Some custom =>
        match custom !! cap with
        | Some b => b
        | None => granted (base_privileges (privilege_level r)) cap
        end
    | None => granted (base_privileges (privilege_level r)) cap
    end.
Proof.
  unfold granted, effective_privileges.
  destruct (custom_privileges r) as [custom |]; [| reflexivity].
  destruct (custom !! cap) as [b |] eqn:Hcap.
  - rewrite (lookup_union_Some_l _ _ _ _ Hcap). reflexivity.
  - rewrite lookup_union_r by exact Hcap. reflexivity.
Qed.

(** The upsert never reaches the table. *)
Lemma track_capability_usage_raises (model_id cap : string) (allowed : bool)
    (w : world priv_db) :
  _track_capability_usage model_id cap allowed w
  = (Raise upsert_rejected, World (S (S (clock w))) (draws w) (store w)).
Proof. reflexivity. Qed.

Lemma check_privilege_active (model_id cap : string) (w : world priv_db)
    (r : model_row) :
  active_row (store w) model_id = Some r ->
  check_privilege model_id cap w
  = (Raise upsert_rejected, World (S (S (clock w))) (draws w) (store w)).
Proof.
  intros Hrow. unfold check_privilege, bind at 1.
  rewrite get_model_privileges_eq, Hrow. cbn [fmap option_fmap option_map].
  rewrite bool_decide_eq_false_2 by apply effective_privileges_nonempty.
  unfold bind. rewrite track_capability_usage_raises. reflexivity.
Qed.

Lemma check_privilege_no_active_row (model_id cap : string) (w : world priv_db) :
  active_row (store w) model_id = None ->
  check_privilege model_id cap w = (Return false, w).
Proof.
  intros Hrow. unfold check_privilege, bind.
  rewrite get_model_privileges_eq, Hrow. reflexivity.
Qed.

(** [check_privilege] returns [False] exactly for the models without an
    active row, and then changes nothing. *)
Lemma check_privilege_false_iff (model_id cap : string) (w w' : world priv_db) :
  check_privilege model_id cap w = (Return false, w')
  <-> active_row (store w) model_id = None /\ w' = w.
Proof.
  split.
  - intros Hcheck. destruct (active_row (store w) model_id) as [r |] eqn:Hrow.
    + rewrite (check_privilege_active _ _ _ r Hrow) in Hcheck. discriminate.
    + rewrite (check_privilege_no_active_row _ _ _ Hrow) in Hcheck.
      split; congruence.
  - intros [Hrow ->]. apply check_privilege_no_active_row, Hrow.
Qed.

(** ** The upsert, had SQLite accepted it

    What the statement is written to do: one row for each pair of a model
    and a capability, whose two counts never decrease. *)

Lemma upsert_usage_pairs (model_id cap : string) (allowed : bool)
    (t_insert t_update : nat) (rows : list usage_row) :
  map (fun r => (usage_model_id r, capability r))
      (upsert_usage model_id cap allowed t_insert t_update rows)
  = map (fun r => (usage_model_id r, capability r)) rows
    ++ (if existsb (same_pair model_id cap) rows then [] else [(model_id, cap)]).
Proof.
  unfold upsert_usage. destruct (existsb (same_pair model_id cap) rows).
  - rewrite app_nil_r, map_map. apply map_ext. intros r.
    destruct (same_pair model_id cap r); reflexivity.
  - rewrite map_app. reflexivity.
Qed.

Lemma upsert_usage_one_row_per_pair (model_id cap : string) (allowed : bool)
    (t_insert t_update : nat) (rows : list usage_row) :
  one_row_per_pair rows ->
  one_row_per_pair (upsert_usage model_id cap allowed t_insert t_update rows).
Proof.
  unfold one_row_per_pair. intros Hrows. rewrite upsert_usage_pairs.
  destruct (existsb (same_pair model_id cap) rows) eqn:Hex.
  - rewrite app_nil_r. exact Hrows.
  - apply NoDup_app. split; [exact Hrows |]. split.
    + intros pair Hin Hnew. apply list_elem_of_singleton in Hnew. subst pair.
      apply list_elem_of_In, in_map_iff in Hin. destruct Hin as (r & Hpair & Hr).
      assert (Hsame : same_pair model_id cap r = true).
      { injection Hpair as Hm Hc. unfold same_pair.
        rewrite Hm, Hc, !String.eqb_refl. reflexivity. }
      assert (Hex' : existsb (same_pair model_id cap) rows = true)
        by (apply existsb_exists; eauto).
      congruence.
    + apply NoDup_singleton.
Qed.

Lemma upsert_usage_counts_grow (model_id cap : string) (allowed : bool)
    (t_insert t_update : nat) (rows : list usage_row) (i : nat) (r : usage_row) :
  rows !! i = Some r ->
  exists r', upsert_usage model_id cap allowed t_insert t_update rows !! i
             = Some r' /\
             usage_model_id r' = usage_model_id r /\
             capability r' = capability r /\
             usage_count r <= usage_count r' /\
             blocked_attempts r <= blocked_attempts r'.
Proof.
  intros Hi. unfold upsert_usage.
  destruct (existsb (same_pair model_id cap) rows).
  - change (map ?f ?l) with (f <$> l). rewrite list_lookup_fmap, Hi. cbn.
    destruct (same_pair model_id cap r).
    + eexists. split; [reflexivity |]. destruct allowed; cbn; split_and!; auto.
    + eexists. split; [reflexivity |]. auto.
  - exists r. split; [apply lookup_app_l_Some, Hi |]. auto.
Qed.

(** C2 fails on the code: for a registered, active model, whatever the
    capability, [check_privilege] raises [sqlite3.OperationalError] from
    the upsert of [_track_capability_usage], whose conflict target
    [(model_id, capability)] is not declared unique by [init_database].
    No boolean is returned and no counter row is written or updated. *)
Theorem check_privilege_raises_on_active_model
    (model_id cap : string) (w : world priv_db) (r : model_row) :
  model_registry (store w) !! model_id = Some r ->
  is_active r = true ->
  fst (check_privilege model_id cap w) = Raise upsert_rejected /\
  store (snd (check_privilege model_id cap w)) = store w /\
  capability_usage (store (snd (check_privilege model_id cap w)))
  = capability_usage (store w).
Proof.
  intros Hreg Hact.
  assert (Hrow : active_row (store w) model_id = Some r)
    by (unfold active_row; rewrite Hreg, Hact; reflexivity).
  rewrite (check_privilege_active _ cap _ r Hrow). auto.
Qed.

Lemma check_privilege_raises_on_active_model_witness :
  fst (check_privilege "pattern_lear" "model_training" one_training_model)
  = Raise upsert_rejected /\
  capability_usage
    (store (snd (check_privilege "pattern_lear" "model_training"
                   one_training_model))) = [].
Proof.
  pose proof (check_privilege_raises_on_active_model
                "pattern_lear" "model_training" one_training_model
                {| model_name := "pattern_learner";
                   privilege_level := "training";
                   custom_privileges := None;
                   created_at := 1; created_by := "test_script";
                   last_modified := 2; is_active := true |}) as Hraise.
  destruct Hraise as (Hfst & _ & Husage).
  - vm_compute. reflexivity.
  - reflexivity.
  - split; [exact Hfst | exact Husage].
Defined.

(** C9: for a model id that is not registered, or whose row is inactive,
    [check_privilege] returns [False] and leaves the whole database, and
    so every usage counter, as it was. *)
Theorem check_privilege_unknown_or_inactive
    (model_id cap : string) (w : world priv_db) :
  (model_registry (store w) !! model_id = None \/
   exists r, model_registry (store w) !! model_id = Some r /\ is_active r = false) ->
  check_privilege model_id cap w = (Return false, w) /\
  capability_usage (store (snd (check_privilege model_id cap w)))
  = capability_usage (store w).
Proof.
  intros Hcase.
  assert (Hrow : active_row (store w) model_id = None).
  { unfold active_row. destruct Hcase as [-> | (r & -> & ->)]; reflexivity. }
  rewrite (check_privilege_no_active_row _ _ _ Hrow). auto.
Qed.

Lemma check_privilege_unknown_or_inactive_witness :
  check_privilege "nobody" "model_training" one_deactivated_model
  = (Return false, one_deactivated_model) /\
  check_privilege "m1" "model_training" one_deactivated_model
  = (Return false, one_deactivated_model).
Proof.
  split.
  - apply (check_privilege_unknown_or_inactive
             "nobody" "model_training" one_deactivated_model).
    left. vm_compute. reflexivity.
  - apply (check_privilege_unknown_or_inactive
             "m1" "model_training" one_deactivated_model).
    right. exists deactivated_model. split; vm_compute; reflexivity.
Defined.

(** ** Registration and escalation *)

Section Escalation.
Context `{Hashlib} `{Datetime}.

Lemma register_model_fresh (model_name created_by : string)
    (level : PrivilegeLevel) (w : world priv_db) :
  model_registry (store w) !! model_id_at model_name (clock w) = None ->
  register_model model_name level created_by None w
  = (Return (model_id_at model_name (clock w)),
     World (4 + clock w) (draws w)
       {| model_registry :=
            <[model_id_at model_name (clock w) :=
                registered_row model_name level created_by (clock w)]>
              (model_registry (store w));
          privilege_audit :=
            privilege_audit (store w) ++
            [{| audit_id := S (length (privilege_audit (store w)));
                audit_model_id := model_id_at model_name (clock w);
                action := "REGISTERED"; old_privilege := None;
                new_privilege := value level;
                reason := "Model registered by " +:+ created_by;
                approved_by := created_by;
                timestamp := 3 + clock w |}];
          capability_usage := capability_usage (store w) |}).
Proof.
  intros Hfresh.
  unfold register_model, _generate_model_id, _audit_action, bind, now, gets,
    modify, ret. cbn [clock draws store].
  fold (model_id_at model_name (clock w)). rewrite Hfresh. reflexivity.
Qed.

Lemma approve_registered (model_id approved_by reason_ : string)
    (new_level : PrivilegeLevel) (w : world priv_db) (r : model_row) :
  model_registry (store w) !! model_id = Some r ->
  approve_privilege_escalation model_id new_level approved_by reason_ w
  = (Return true,
     World (2 + clock w) (draws w)
       {| model_registry :=
            alter (escalated (value new_level) (clock w)) model_id
                  (model_registry (store w));
          privilege_audit :=
            privilege_audit (store w) ++
            [{| audit_id := S (length (privilege_audit (store w)));
                audit_model_id := model_id;
                action := "ESCALATION_APPROVED";
                old_privilege := Some (privilege_level r);
                new_privilege := value new_level;
                reason := reason_;
                approved_by := approved_by;
                timestamp := 1 + clock w |}];
          capability_usage := capability_usage (store w) |}).
Proof.
  intros Hreg.
  unfold approve_privilege_escalation, _audit_action, bind, now, gets, modify,
    ret. cbn [clock draws store]. rewrite Hreg. reflexivity.
Qed.

End Escalation.

(** C10: for a model that is registered but deactivated,
    [approve_privilege_escalation] returns [True], stores the new level
    and the time of the call in the row (which stays inactive) and
    appends one ESCALATION_APPROVED audit row with the old and the new
    level, although [check_privilege] returns [False] for that model and
    every capability, before and after. *)
Theorem approve_escalation_of_deactivated_model
    (model_id approved_by reason_ : string) (new_level : PrivilegeLevel)
    (w : world priv_db) (r : model_row) :
  model_registry (store w) !! model_id = Some r ->
  is_active r = false ->
  let call := approve_privilege_escalation model_id new_level approved_by reason_ in
  fst (call w) = Return true /\
  (exists r', model_registry (store (snd (call w))) !! model_id = Some r' /\
              privilege_level r' = value new_level /\
              last_modified r' = clock w /\
              is_active r' = false) /\
  privilege_audit (store (snd (call w)))
  = privilege_audit (store w) ++
    [{| audit_id := S (length (privilege_audit (store w)));
        audit_model_id := model_id;
        action := "ESCALATION_APPROVED";
        old_privilege := Some (privilege_level r);
        new_privilege := value new_level;
        reason := reason_;
        approved_by := approved_by;
        timestamp := 1 + clock w |}] /\
  (forall cap, check_privilege model_id cap w = (Return false, w)) /\
  (forall cap, check_privilege model_id cap (snd (call w))
               = (Return false, snd (call w))).
Proof.
  intros Hreg Hact call. unfold call.
  rewrite (approve_registered _ _ _ _ _ r Hreg).
  cbn [fst snd store model_registry privilege_audit].
  split; [reflexivity |]. split; [| split; [reflexivity | split]].
  - exists (escalated (value new_level) (clock w) r). split.
    + rewrite lookup_alter, decide_True by reflexivity. rewrite Hreg. reflexivity.
    + cbn. auto.
  - intros cap. apply check_privilege_no_active_row.
    unfold active_row. rewrite Hreg, Hact. reflexivity.
  - intros cap. apply check_privilege_no_active_row.
    unfold active_row. cbn [store model_registry].
    rewrite lookup_alter, decide_True by reflexivity. rewrite Hreg. cbn.
    rewrite Hact. reflexivity.
Qed.

Lemma approve_escalation_of_deactivated_model_witness :
  fst (approve_privilege_escalation "m1" DESKTOP "admin" "restore"
         one_deactivated_model) = Return true /\
  check_privilege "m1" "file_system_write"
    (snd (approve_privilege_escalation "m1" DESKTOP "admin" "restore"
            one_deactivated_model))
  = (Return false,
     snd (approve_privilege_escalation "m1" DESKTOP "admin" "restore"
            one_deactivated_model)).
Proof.
  pose proof (approve_escalation_of_deactivated_model
                "m1" "admin" "restore" DESKTOP one_deactivated_model
                deactivated_model) as Happrove.
  destruct Happrove as (Hret & _ & _ & _ & Hafter).
  - vm_compute. reflexivity.
  - reflexivity.
  - split; [exact Hret | apply Hafter].
Defined.

(** C8 on the code: a model registered at level TRAINING on a new
    database, then escalated to DESKTOP.  The effective capability map
    denies [file_system_write] before the approval and grants it after,
    and the approval leaves exactly one ESCALATION_APPROVED audit row,
    from "training" to "desktop"; but both calls of [check_privilege]
    raise [sqlite3.OperationalError] instead of returning [False] and
    [True] (the defect of C2). *)
Theorem escalation_scenario `{Hashlib} `{Datetime}
    (model_name created_by approver reason_ : string) (t d : nat) :
  let model_id := model_id_at model_name t in
  let registration :=
    register_model model_name TRAINING created_by None (World t d empty_db) in
  let w1 := snd registration in
  let approval :=
    approve_privilege_escalation model_id DESKTOP approver reason_ w1 in
  let w2 := snd approval in
  fst registration = Return model_id /\
  (exists m, get_model_privileges model_id w1 = (Return (Some m), w1) /\
  granted m "file_system_write" = false) /\
  fst (check_privilege model_id "file_system_write" w1) = Raise upsert_rejected /\
  fst approval = Return true /\
  (exists m, get_model_privileges model_id w2 = (Return (Some m), w2) /\
  granted m "file_system_write" = true) /\
  fst (check_privilege model_id "file_system_write" w2) = Raise upsert_rejected /\
  audit_entries (store w2) model_id "ESCALATION_APPROVED"
  = [{| audit_id := 2; audit_model_id := model_id;
        action := "ESCALATION_APPROVED";
        old_privilege := Some "training"; new_privilege := "desktop";
        reason := reason_; approved_by := approver; timestamp := 5 + t |}].
Proof.
  intros model_id registration w1 approval w2.
  assert (Hreg : registration
                 = (Return model_id,
                    World (4 + t) d
                      {| model_registry :=
                           {[ model_id :=
                                registered_row model_name TRAINING created_by t ]};
                         privilege_audit :=
                           [{| audit_id := 1; audit_model_id := model_id;
                               action := "REGISTERED"; old_privilege := None;
                               new_privilege := "training";
                               reason := "Model registered by " +:+ created_by;
                               approved_by := created_by;
                               timestamp := 3 + t |}];
                         capability_usage := [] |})).
  { unfold registration.
    rewrite register_model_fresh by apply lookup_empty. reflexivity. }
  assert (Hrow1 : model_registry (store w1) !! model_id
                  = Some (registered_row model_name TRAINING created_by t)).
  { unfold w1. rewrite Hreg. cbn [snd store model_registry].
    apply lookup_singleton_eq. }
  assert (Happ : approval
                 = (Return true,
                    World (6 + t) d
                      {| model_registry :=
                           alter (escalated "desktop" (4 + t)) model_id
                                 (model_registry (store w1));
                         privilege_audit :=
                           privilege_audit (store w1) ++
                           [{| audit_id := 2; audit_model_id := model_id;
                               action := "ESCALATION_APPROVED";
                               old_privilege := Some "training";
                               new_privilege := "desktop";
                               reason := reason_; approved_by := approver;
                               timestamp := 5 + t |}];
                         capability_usage := capability_usage (store w1) |})).
  { unfold approval. rewrite (approve_registered _ _ _ _ _ _ Hrow1).
    unfold w1. rewrite Hreg. reflexivity. }
  assert (Hrow2 : model_registry (store w2) !! model_id
                  = Some (escalated "desktop" (4 + t)
                            (registered_row model_name TRAINING created_by t))).
  { unfold w2. rewrite Happ. cbn [snd store model_registry].
    rewrite lookup_alter, decide_True by reflexivity. rewrite Hrow1. reflexivity. }
  assert (Hact1 : active_row (store w1) model_id
                  = Some (registered_row model_name TRAINING created_by t))
    by (unfold active_row; rewrite Hrow1; reflexivity).
  assert (Hact2 : active_row (store w2) model_id
                  = Some (escalated "desktop" (4 + t)
                            (registered_row model_name TRAINING created_by t)))
    by (unfold active_row; rewrite Hrow2; reflexivity).
  split_and!.
  - rewrite Hreg. reflexivity.
  - eexists. split.
    + rewrite get_model_privileges_eq, Hact1. reflexivity.
    + vm_compute. reflexivity.
  - rewrite (check_privilege_active _ _ _ _ Hact1). reflexivity.
  - rewrite Happ. reflexivity.
  - eexists. split.
    + rewrite get_model_privileges_eq, Hact2. reflexivity.
    + vm_compute. reflexivity.
  - rewrite (check_privilege_active _ _ _ _ Hact2). reflexivity.
  - unfold w2. rewrite Happ. unfold w1. rewrite Hreg.
    unfold audit_entries. cbn [snd store privilege_audit app List.filter
      audit_model_id action].
    rewrite String.eqb_refl. reflexivity.
Qed.

End PrivilegeFacts.

(** * Properties of pattern synthesis *)

Module SynthesisFacts.
Import Intelligence IntelligenceProps.










(** ** The method on list objects computes the function *)






(** ** The rounds of the synthesis *)




(** ** Merging a pattern list with itself *)











(** The rule as the specification words it is not idempotent either:
    merging [[lo; hi]] with itself overwrites [lo]. *)
Lemma spec_synthesize_self_changes :
  spec_synthesize [pat_lo; pat_hi] [pat_lo; pat_hi] = [pat_hi; pat_hi].
Proof. vm_compute. reflexivity. Qed.


End SynthesisFacts.

(** * Properties of the task queue *)

Module QueueFacts.
Import Intelligence IntelligenceProps.

(** ** The order of the SELECT *)


Lemma insert_by_permutation {A} (key : A -> nat) (x : A) (sorted : list A) :
  Permutation (x :: sorted) (insert_by key x sorted).
Proof.
  induction sorted as [| y sorted IH]; cbn.
  - reflexivity.
  - destruct (key x <=? key y); [reflexivity |].
    rewrite perm_swap. apply perm_skip, IH.
Qed.

Lemma order_by_permutation {A} (key : A -> nat) (rows : list A) :
  Permutation rows (order_by key rows).
Proof.
  induction rows as [| x rows IH]; cbn.
  - reflexivity.
  - rewrite <- insert_by_permutation. apply perm_skip, IH.
Qed.








Section Queue.
Context `{Hashlib} `{Datetime} `{Random} `{Json}.

(** Two "high" rows submitted last come first; the rows of one priority
    keep their order; an assigned row is not selected. *)
Example select_pending_sample :
  map task_id
      (select_pending
         [pending_row "t1" "first" "medium" 1;
          pending_row "t2" "second" "low" 2;
          assigned "s1" (pending_row "t3" "third" "high" 3);
          pending_row "t4" "fourth" "medium" 4;
          pending_row "t5" "fifth" "high" 5;
          pending_row "t6" "sixth" "high" 6])
  = ["t5"; "t6"; "t1"; "t4"; "t2"].
Proof. reflexivity. Qed.

(** ** Submission order is row order *)

Lemma find_none_map_id (id_ : string) (f : task_row -> task_row)
    (rows : list task_row) :
  List.find (fun r => String.eqb (task_id r) id_) rows = None ->
  map (fun r => if String.eqb (task_id r) id_ then f r else r) rows = rows.
Proof.
  induction rows as [| r rows IH]; [reflexivity |]. cbn.
  destruct (String.eqb (task_id r) id_); [discriminate |].
  intros Hnone. rewrite (IH Hnone). reflexivity.
Qed.

Lemma find_last (id_ : string) (rows : list task_row) (new : task_row) :
  List.find (fun r => String.eqb (task_id r) id_) rows = None ->
  task_id new = id_ ->
  List.find (fun r => String.eqb (task_id r) id_) (rows ++ [new]) = Some new.
Proof.
  intros Hnone Hid. induction rows as [| r rows IH]; cbn in *.
  - rewrite Hid, String.eqb_refl. reflexivity.
  - destruct (String.eqb (task_id r) id_); [discriminate |]. apply IH, Hnone.
Qed.

Lemma auto_assign_last (id_ : string) (rows : list task_row) (new : task_row)
    (w : world layer) :
  task_queue (store w) = rows ++ [new] ->
  List.find (fun r => String.eqb (task_id r) id_) rows = None ->
  task_id new = id_ ->
  exists row w',
    _auto_assign_task id_ w = (Return tt, w') /\
    task_queue (store w') = rows ++ [row] /\
    (row = new \/ exists sid, row = assigned sid new).
Proof.
  intros Hrows Hnone Hid.
  assert (Hmap : forall sid,
    map (fun r => if String.eqb (task_id r) id_ then assigned sid r else r)
        (rows ++ [new]) = rows ++ [assigned sid new]).
  { intros sid. rewrite map_app, (find_none_map_id _ _ _ Hnone). cbn.
    rewrite Hid, String.eqb_refl. reflexivity. }
  unfold _auto_assign_task, bind at 1. unfold gets at 1. cbn [fst snd].
  rewrite Hrows, (find_last _ _ _ Hnone Hid).
  destruct (domain new) as [d |];
    [| exists new, w; unfold bind, ret; cbn; auto].
  destruct (String.eqb d "");
    [exists new, w; unfold bind, ret; cbn; auto |].
  unfold _find_best_specialist. unfold bind, gets, ret. cbv beta iota.
  destruct (List.filter
              (fun e => option_string_eqb (spec_domain (snd e)) (Some d))
              (active_specialists (store w))) as [| c cs].
  - exists new, w. split_and!; [reflexivity | exact Hrows | auto].
  - destruct (String.eqb (fst (most_patterns c cs)) "").
    + exists new, w. split_and!; [reflexivity | exact Hrows | auto].
    + exists (assigned (fst (most_patterns c cs)) new). eexists.
      unfold modify. split; [reflexivity |].
      cbn [fst snd store with_tasks task_queue]. rewrite Hrows, Hmap.
      split; eauto.
Qed.

(** A task that [add_task_to_queue] accepts becomes the last row of the
    table, pending or already assigned: the order of the rows is the
    order of submission. *)
Lemma add_task_to_queue_appends (text : string) (dom : option string)
    (prio id_ : string) (w w' : world layer) :
  add_task_to_queue text dom prio w = (Return id_, w') ->
  exists row,
    task_queue (store w') = task_queue (store w) ++ [row] /\
    task_id row = id_ /\ description row = text /\ priority row = prio /\
    (status row = "pending" \/ status row = "assigned").
Proof.
  unfold add_task_to_queue, _generate_id, bind at 1 2 3 4. unfold now, gets, ret.
  cbn [fst snd clock draws store].
  set (new_id := prefix_of 16 (md5_hexdigest (text +:+ "_" +:+ isoformat (clock w)))).
  destruct (List.find _ (task_queue (store w))) eqn:Hnone; [discriminate |].
  set (new := {| task_id := new_id; description := text; domain := dom;
                 priority := prio; status := "pending"; assigned_to := None;
                 created_at := S (clock w); completed_at := None;
                 result := None |}).
  unfold bind at 1. unfold modify at 1. cbn [fst snd clock draws store].
  set (w1 := World _ _ _).
  destruct (auto_assign_last new_id (task_queue (store w)) new w1
              eq_refl Hnone eq_refl) as (row & w2 & Hassign & Hrows & Hrow).
  unfold bind. rewrite Hassign.
  intros Heq. injection Heq as <- <-.
  exists row. split; [exact Hrows |].
  destruct Hrow as [-> | [sid ->]]; cbn; auto.
Qed.


(** ** A task whose specialist may not train *)






End Queue.



End QueueFacts.

(** * Properties of the detectors and of the catalog *)

Module CatalogFacts.
Import PatternEngine PatternEngineProps PatternCatalog PatternCatalogProps.

(** ** The modular detector *)







(** ** Sums of rationals *)

Lemma fold_sum_all (l : list Q) (r acc : Q) :
  Forall (fun q => q == r)%Q l ->
  (fold_left Qplus l acc == acc + Qlen l * r)%Q.
Proof.
  intros Hall. revert acc. induction Hall as [| q l Hq _ IH]; intros acc.
  - unfold Qlen. cbn. ring.
  - cbn [fold_left]. rewrite IH. unfold Qlen. cbn [length].
    rewrite Nat2Z.inj_succ, <- Z.add_1_l, inject_Z_plus, Hq. ring.
Qed.

Lemma Qsum_all (l : list Q) (r : Q) :
  Forall (fun q => q == r)%Q l -> (Qsum l == Qlen l * r)%Q.
Proof.
  intros Hall. unfold Qsum. rewrite (fold_sum_all l r 0 Hall). ring.
Qed.

Lemma Qlen_nonzero {A} (l : list A) : l <> [] -> ~ (Qlen l == 0)%Q.
Proof.
  intros Hl Hzero. destruct l as [| a l]; [congruence |].
  unfold Qlen, Qeq in Hzero. cbn in Hzero. lia.
Qed.

(** The mean and the variance of a list whose elements all equal [r]. *)
Lemma mean_of_all (l : list Q) (r : Q) :
  l <> [] -> Forall (fun q => q == r)%Q l -> (Qsum l / Qlen l == r)%Q.
Proof.
  intros Hl Hall. rewrite (Qsum_all l r Hall).
  field. apply Qlen_nonzero, Hl.
Qed.

Lemma variance_of_all (l : list Q) (r avg : Q) :
  l <> [] -> Forall (fun q => q == r)%Q l -> (avg == r)%Q ->
  (Qsum (map (fun q => (q - avg) ^ 2) l) / Qlen l == 0)%Q.
Proof.
  intros Hl Hall Havg.
  assert (Hzero : Forall (fun q => q == 0)%Q (map (fun q => (q - avg) ^ 2)%Q l)).
  { apply Forall_map. eapply Forall_impl; [exact Hall |].
    intros q Hq. cbn beta. simpl. rewrite Hq, Havg. ring. }
  rewrite (Qsum_all _ 0 Hzero). field.
  apply Qlen_nonzero, Hl.
Qed.

(** ** The ratio detector *)

Lemma detect_ratio_unfold (data : list Q) :
  2 <= length data ->
  _detect_ratio_pattern data
  = match ratios_of data with
    | [] => None
    | _ =>
        let avg_ratio := (Qsum (ratios_of data) / Qlen (ratios_of data))%Q in
        let variance :=
          (Qsum (map (fun r => (r - avg_ratio) ^ 2) (ratios_of data))
           / Qlen (ratios_of data))%Q in
        if Qltb variance (1 # 100) then Some avg_ratio else None
    end.
Proof.
  intros Hlen. unfold _detect_ratio_pattern, ratios_of.
  destruct (Nat.ltb_spec (length data) 2); [lia | reflexivity].
Qed.

Lemma detect_ratio_all (data : list Q) (r : Q) :
  2 <= length data -> ratios_of data <> [] ->
  Forall (fun q => q == r)%Q (ratios_of data) ->
  exists ratio, _detect_ratio_pattern data = Some ratio /\ (ratio == r)%Q.
Proof.
  intros Hlen Hne Hall. rewrite (detect_ratio_unfold data Hlen).
  destruct (ratios_of data) as [| q l] eqn:Hratios; [congruence |].
  cbv zeta.
  pose proof (mean_of_all (q :: l) r Hne Hall) as Havg.
  pose proof (variance_of_all (q :: l) r _ Hne Hall Havg) as Hvar.
  match goal with
  | |- context [Qltb ?v (1 # 100)] =>
      assert (Hlt : Qltb v (1 # 100) = true)
        by (apply Qltb_true; rewrite Hvar; reflexivity)
  end.
  rewrite Hlt. eexists. split; [reflexivity | exact Havg].
Qed.





Lemma no_ratio_entry (data : list Q) (fld : option string) (d : discovery) :
  geometric_discoveries data = [] ->
  In d (discoveries (discover_pattern data fld)) ->
  pattern d <> "ratio".
Proof.
  intros Hgeo. unfold discover_pattern, arithmetic_discoveries, chaos_discoveries.
  cbn [discoveries]. rewrite Hgeo. intros Hin.
  repeat match type of Hin with
    | In _ (_ ++ _) => apply in_app_or in Hin; destruct Hin as [Hin | Hin]
    | In _ (if ?b then _ else _) => destruct b
    end;
  cbn [In] in Hin; try contradiction;
  destruct Hin as [<- | []]; cbn; discriminate.
Qed.

(** X5: A sequence that falls to zero after a non-zero first element has
    the ratio 0: [_detect_ratio_pattern] returns it, but
    [discover_pattern] tests the returned number for truth and so
    reports no ratio pattern, whatever the field restriction. *)
Theorem zero_ratio_not_reported (data : list Q) :
  2 <= length data -> ~ (item data 0 == 0)%Q ->
  (forall i, 1 <= i < length data -> (item data i == 0)%Q) ->
  (exists ratio, _detect_ratio_pattern data = Some ratio /\ (ratio == 0)%Q) /\
  forall fld d, In d (discoveries (discover_pattern data fld)) ->
                pattern d <> "ratio".
Proof.
  intros Hlen H0 Hzero.
  assert (Hratios : ratios_of data = [(item data 1 / item data 0)%Q]).
  { unfold ratios_of. destruct (length data - 1) as [| n] eqn:En; [lia |].
    cbn [seq flat_map]. change (1 - 1) with 0.
    destruct (Qeq_bool (item data 0) 0) eqn:E;
      [apply Qeq_bool_iff in E; contradiction |].
    cbn [app]. f_equal.
    assert (Hrest : forall is_, (forall i, In i is_ -> 2 <= i <= length data) ->
      flat_map (fun i => if Qeq_bool (item data (i - 1)) 0 then []
                         else [(item data i / item data (i - 1))%Q]) is_ = []).
    { induction is_ as [| i is_ IH]; intros His; [reflexivity |].
      cbn [flat_map]. rewrite IH by (intros j Hj; apply His; right; exact Hj).
      assert (Hi : (item data (i - 1) == 0)%Q).
      { apply Hzero. specialize (His i (or_introl eq_refl)). lia. }
      apply Qeq_bool_iff in Hi. rewrite Hi. reflexivity. }
    apply Hrest. intros i Hi. apply in_seq in Hi. lia. }
  assert (Hall : Forall (fun q => q == 0)%Q (ratios_of data)).
  { rewrite Hratios. repeat constructor.
    unfold Qdiv. rewrite (Hzero 1) by lia. ring. }
  destruct (detect_ratio_all data 0 Hlen) as (ratio & Hdetect & Hratio);
    [rewrite Hratios; discriminate | exact Hall |].
  split; [exists ratio; auto |].
  intros fld d. apply no_ratio_entry.
  unfold geometric_discoveries. rewrite Hdetect.
  apply Qeq_bool_iff in Hratio. rewrite Hratio. reflexivity.
Qed.

Lemma zero_ratio_not_reported_witness :
  (exists ratio, _detect_ratio_pattern [5; 0; 0]%Q = Some ratio /\ (ratio == 0)%Q) /\
  geometric_discoveries [5; 0; 0]%Q = [].
Proof.
  destruct (zero_ratio_not_reported [5; 0; 0]%Q) as [Hdetect _].
  - cbn. lia.
  - discriminate.
  - intros i Hi. cbn in Hi.
    assert (Hc : i = 1 \/ i = 2) by lia. destruct Hc as [-> | ->]; reflexivity.
  - split; [exact Hdetect | reflexivity].
Defined.

(** ** ArithmeticPatterns *)

Lemma error_absorbs {B} (f : Q -> B -> computed Q) (l : list B)
    (e : arith_error) :
  fold_left (fun acc b => and_then acc (fun a => f a b)) l (Error e) = Error e.
Proof. induction l as [| b l IH]; [reflexivity | exact IH]. Qed.

(** X6: [harmonic_series] guards only [x == 0]: it raises
    [ZeroDivisionError] exactly when [x] is one of [-1, ..., -terms], and
    returns a number otherwise (0 at [x = 0] and when [terms <= 0]). *)
Theorem harmonic_series_raises_iff (x : Q) (terms : Z) :
  (harmonic_series x terms = Error ZeroDivision <->
   exists i, (1 <= i <= terms)%Z /\ (x == inject_Z (- i))%Q) /\
  (harmonic_series x terms <> Error ZeroDivision ->
   exists total, harmonic_series x terms = Value total).
Proof.
  assert (Hloop : forall l acc,
    let run := fold_left
      (fun acc i =>
         and_then acc (fun total =>
         and_then (divide 1 (x + inject_Z (Z.of_nat i))) (fun term =>
         Value (total + term)%Q))) l (Value acc) in
    (run = Error ZeroDivision <->
     exists i, In i l /\ (x + inject_Z (Z.of_nat i) == 0)%Q) /\
    (run <> Error ZeroDivision -> exists total, run = Value total)).
  { induction l as [| i l IH]; intros acc run.
    - subst run. cbn. split; [split; [discriminate | intros (i & [] & _)] | eauto].
    - subst run. cbn [fold_left and_then].
      destruct (Qeq_bool (x + inject_Z (Z.of_nat i)) 0) eqn:E.
      + assert (Hd : divide 1 (x + inject_Z (Z.of_nat i)) = Error ZeroDivision)
          by (unfold divide; rewrite E; reflexivity).
        rewrite Hd. cbn [and_then].
        rewrite (error_absorbs
                   (fun total i0 =>
                      and_then (divide 1 (x + inject_Z (Z.of_nat i0)))
                        (fun term => Value (total + term)%Q))).
        split; [| congruence]. split; [| reflexivity].
        intros _. exists i. split; [left; reflexivity | apply Qeq_bool_iff, E].
      + assert (Hd : divide 1 (x + inject_Z (Z.of_nat i))
                     = Value (1 / (x + inject_Z (Z.of_nat i)))%Q)
          by (unfold divide; rewrite E; reflexivity).
        rewrite Hd. cbn [and_then].
        destruct (IH (acc + 1 / (x + inject_Z (Z.of_nat i)))%Q)
          as [Hiff Hval].
        split; [| exact Hval]. rewrite Hiff. split.
        * intros (j & Hj & Hx). exists j. split; [right; exact Hj | exact Hx].
        * intros (j & [<- | Hj] & Hx); [| exists j; auto].
          apply Qeq_bool_iff in Hx. congruence. }
  assert (Hneg : forall i : Z, (x + inject_Z i == 0 <-> x == inject_Z (- i))%Q).
  { intros i. rewrite inject_Z_opp. split; intros Hx.
    - rewrite <- (Qplus_0_r x), <- (Qplus_opp_r (inject_Z i)).
      rewrite Qplus_assoc, Hx. ring.
    - rewrite Hx. ring. }
  unfold harmonic_series. destruct (Qeq_bool x 0) eqn:Ex.
  - split; [| eauto]. split; [discriminate |].
    intros (i & Hi & Hx). apply Qeq_bool_iff in Ex. rewrite Ex in Hx.
    unfold Qeq in Hx. cbn in Hx. lia.
  - destruct (Hloop (seq 1 (Z.to_nat terms)) 0%Q) as [Hiff Hval].
    split; [| exact Hval]. rewrite Hiff. split.
    + intros (i & Hi & Hx). apply in_seq in Hi. exists (Z.of_nat i).
      split; [lia | apply Hneg, Hx].
    + intros (i & Hi & Hx). exists (Z.to_nat i).
      split; [apply in_seq; lia |]. rewrite Z2Nat.id by lia. apply Hneg, Hx.
Qed.

Lemma modulo_term_bounds (x : Q) (m : Z) :
  m <> 0%Z ->
  exists term,
    and_then (modulo x m) (fun remainder => divide remainder (inject_Z m))
    = Value term /\ (0 <= term)%Q /\ (term <= 1)%Q.
Proof.
  intros Hm.
  assert (Hmq : ~ (inject_Z m == 0)%Q).
  { unfold Qeq. cbn. lia. }
  unfold modulo. rewrite (proj2 (Z.eqb_neq m 0) Hm). cbn [and_then].
  unfold divide. destruct (Qeq_bool (inject_Z m) 0) eqn:E;
    [apply Qeq_bool_iff in E; contradiction |].
  eexists. split; [reflexivity |].
  set (q := (x / inject_Z m)%Q).
  assert (Hterm : ((x - inject_Z m * inject_Z (Qfloor q)) / inject_Z m
                   == q - inject_Z (Qfloor q))%Q)
    by (unfold q; field; exact Hmq).
  rewrite Hterm.
  pose proof (Qfloor_le q) as Hlow. pose proof (Qlt_floor q) as Hhigh.
  rewrite inject_Z_plus in Hhigh. change (inject_Z 1) with 1%Q in Hhigh.
  clearbody q. set (f := inject_Z (Qfloor q)) in *. clearbody f.
  clear - Hlow Hhigh. split; lra.
Qed.

(** X7: [modular_synthesis] raises [ZeroDivisionError] exactly when one of
    the moduli is 0; otherwise each modulus adds a term between 0 and 1
    (in exact arithmetic), whatever the sign of [x] and of the modulus,
    so the result lies between 0 and the number of moduli. *)
Theorem modular_synthesis_range (x : Q) (moduli : list Z) :
  (modular_synthesis x moduli = Error ZeroDivision <-> In 0%Z moduli) /\
  (~ In 0%Z moduli ->
   exists result, modular_synthesis x moduli = Value result /\
                  (0 <= result)%Q /\ (result <= Qlen moduli)%Q).
Proof.
  assert (Hloop : forall l acc,
    let run := fold_left
      (fun acc m =>
         and_then acc (fun result =>
         and_then (modulo x m) (fun remainder =>
         and_then (divide remainder (inject_Z m)) (fun term =>
         Value (result + term)%Q)))) l (Value acc) in
    (run = Error ZeroDivision <-> In 0%Z l) /\
    (~ In 0%Z l ->
     exists result, run = Value result /\
                    (acc <= result)%Q /\ (result <= acc + Qlen l)%Q)).
  { induction l as [| m l IH]; intros acc run; subst run.
    - cbn [fold_left In]. split; [split; [discriminate | contradiction] |].
      intros _. exists acc. change (Qlen (@nil Z)) with 0%Q.
      split; [reflexivity |]. split; lra.
    - cbn [fold_left and_then].
      destruct (Z.eq_dec m 0%Z) as [-> | Hm].
      + cbn [modulo Z.eqb and_then].
        rewrite (error_absorbs
                   (fun result m0 =>
                      and_then (modulo x m0) (fun remainder =>
                      and_then (divide remainder (inject_Z m0)) (fun term =>
                      Value (result + term)%Q)))).
        split; [split; [cbn; auto | reflexivity] |].
        intros Hnot. exfalso. apply Hnot. left. reflexivity.
      + destruct (modulo_term_bounds x m Hm) as (term & Hterm & Hlow & Hhigh).
        assert (Hstep :
          and_then (modulo x m) (fun remainder =>
          and_then (divide remainder (inject_Z m)) (fun t =>
          Value (acc + t)%Q)) = Value (acc + term)%Q).
        { revert Hterm. destruct (modulo x m) as [remainder | e];
            cbn [and_then]; [| discriminate].
          intros ->. reflexivity. }
        rewrite Hstep. destruct (IH (acc + term)%Q) as [Hiff Hval].
        split.
        * rewrite Hiff. cbn. split; [auto | intros [Heq | Hin]; congruence].
        * intros Hnot. destruct Hval as (result & Hrun & Hl & Hh).
          { intros Hin. apply Hnot. right. exact Hin. }
          exists result. split; [exact Hrun |].
          unfold Qlen in *. cbn [length]. rewrite Nat2Z.inj_succ, <- Z.add_1_l,
            inject_Z_plus. change (inject_Z 1) with 1%Q. split; lra. }
  destruct (Hloop moduli 0%Q) as [Hiff Hval]. split; [exact Hiff |].
  intros Hnot. destruct (Hval Hnot) as (result & Hrun & Hl & Hh).
  exists result. split; [exact Hrun |]. split; lra.
Qed.

Lemma modular_synthesis_range_witness :
  exists result, modular_synthesis (-1 # 2) default_moduli = Value result /\
                 (0 <= result)%Q /\ (result <= 3)%Q.
Proof.
  destruct (proj2 (modular_synthesis_range (-1 # 2) default_moduli))
    as (result & Hrun & Hl & Hh).
  - cbn. intros [H | [H | [H | []]]]; discriminate.
  - exists result. auto.
Defined.

(** ** CalculusPatterns *)







(** ** AlgebraicPatterns *)





(** ** DiscretePatterns *)

Lemma pascal_above (n k : nat) : n < k -> pascal n k = 0.
Proof.
  revert k. induction n as [| n IH]; intros k Hk.
  - destruct k; [lia | reflexivity].
  - destruct k as [| k]; [lia |]. cbn. rewrite !IH by lia. reflexivity.
Qed.

Lemma pascal_diagonal (n : nat) : pascal n n = 1.
Proof.
  induction n as [| n IH]; [reflexivity |].
  cbn. rewrite IH, pascal_above by lia. reflexivity.
Qed.

Lemma pascal_factorials (n k : nat) :
  k <= n -> pascal n k * (fact k * fact (n - k)) = fact n.
Proof.
  revert k. induction n as [| n IH]; intros k Hk.
  - replace k with 0 by lia. reflexivity.
  - destruct k as [| k].
    + cbn [pascal]. rewrite Nat.sub_0_r. cbn [fact]. lia.
    + destruct (Nat.eq_dec k n) as [-> | Hne].
      * rewrite pascal_diagonal, Nat.sub_diag. cbn [fact]. lia.
      * cbn [pascal]. cbn [Nat.sub].
        pose proof (IH k ltac:(lia)) as Hk1.
        pose proof (IH (S k) ltac:(lia)) as Hk2.
        replace (n - k) with (S (n - S k)) in Hk1 by lia.
        replace (n - k) with (S (n - S k)) by lia.
        change (fact (S n)) with (S n * fact n).
        change (fact (S k)) with (S k * fact k) in *.
        change (fact (S (n - S k))) with (S (n - S k) * fact (n - S k)) in *.
        replace (S n) with (S k + S (n - S k)) at 2 by lia.
        nia.
Qed.

(** X13: For natural numbers [combinatorial_pattern] is the entry of Pascal's
    triangle (0 above the diagonal); for [k <= n] with [n] or [k]
    negative it raises the [ValueError] of [math.factorial]. *)
Theorem combinatorial_pattern_pascal :
  (forall n k : nat,
     combinatorial_pattern (Z.of_nat n) (Z.of_nat k)
     = Value (Z.of_nat (pascal n k))) /\
  (forall n k : Z,
     (k <= n)%Z -> (k < 0)%Z ->
     combinatorial_pattern n k = Error ValueError).
Proof.
  split.
  - intros n k. unfold combinatorial_pattern, factorial.
    destruct (Z.gtb_spec (Z.of_nat k) (Z.of_nat n)) as [Hgt | Hle].
    + rewrite pascal_above by lia. reflexivity.
    + rewrite (proj2 (Z.ltb_ge _ 0)) by lia.
      rewrite (proj2 (Z.ltb_ge (Z.of_nat k) 0)) by lia.
      rewrite (proj2 (Z.ltb_ge (Z.of_nat n - Z.of_nat k) 0)) by lia.
      cbn [and_then]. f_equal.
      rewrite <- Nat2Z.inj_sub by lia. rewrite !Nat2Z.id.
      rewrite <- Nat2Z.inj_mul, <- (pascal_factorials n k) by lia.
      rewrite Nat2Z.inj_mul. apply Z.div_mul.
      pose proof (lt_O_fact k). pose proof (lt_O_fact (n - k)). nia.
  - intros n k Hle Hneg. unfold combinatorial_pattern, factorial.
    destruct (Z.gtb_spec k n) as [Hgt | _]; [lia |].
    destruct (n <? 0)%Z; [reflexivity |]. cbn [and_then].
    rewrite (proj2 (Z.ltb_lt k 0) Hneg). reflexivity.
Qed.

(** ** InformationPatterns *)





(** ** ChaosPatterns *)






(** ** Prime factorisation *)

Lemma product_app (xs ys : list Z) :
  product (xs ++ ys) = (product xs * product ys)%Z.
Proof.
  induction xs as [| x xs IH]; cbn [app product fold_right].
  - fold (product ys). lia.
  - fold (product (xs ++ ys)) (product xs). rewrite IH. lia.
Qed.

Lemma product_repeat_divides (d : Z) (k : nat) :
  k <> 0 -> (d | product (repeat d k))%Z.
Proof.
  destruct k as [| k]; [congruence |]. intros _.
  cbn [repeat product fold_right]. apply Z.divide_factor_l.
Qed.

(** The inner loop takes every factor [d] out of [n]. *)
Lemma divide_out_spec (fuel : nat) (d n : Z) (factors : list Z) :
  (2 <= d)%Z -> (1 <= n)%Z -> (n < Z.of_nat fuel)%Z ->
  exists n' k,
    divide_out fuel d n factors = Some (n', factors ++ repeat d k) /\
    n = (n' * product (repeat d k))%Z /\ (1 <= n' <= n)%Z /\ ~ (d | n')%Z.
Proof.
  intros Hd. revert n factors.
  induction fuel as [| fuel IH]; intros n factors Hn Hfuel; [lia |].
  cbn [divide_out]. destruct (Z.eqb_spec (n mod d) 0) as [Hdiv | Hrem].
  - assert (Hexact : n = (d * (n / d))%Z) by (apply Z_div_exact_2; lia).
    assert (Hquot : (1 <= n / d < n)%Z).
    { clear - Hexact Hd Hn. set (c := (n / d)%Z) in *. clearbody c. nia. }
    destruct (IH (n / d)%Z (factors ++ [d])) as (n' & k & Hrun & Hprod & Hn' & Hnot);
      [lia | lia |].
    exists n', (S k). split; [| split; [| split]].
    + rewrite Hrun, <- app_assoc. reflexivity.
    + cbn [repeat product fold_right]. fold (product (repeat d k)).
      rewrite Hexact at 1. rewrite Hprod. lia.
    + lia.
    + exact Hnot.
  - exists n, 0. cbn [repeat]. rewrite app_nil_r. split; [| split; [| split]].
    + reflexivity.
    + cbn. lia.
    + lia.
    + intros Hdiv. apply Hrem, Z.mod_divide; [lia | exact Hdiv].
Qed.

Lemma least_divisor_prime (d n : Z) :
  (2 <= d)%Z -> (d | n)%Z ->
  (forall q, (2 <= q < d)%Z -> ~ (q | n)%Z) -> Z.prime d.
Proof.
  intros Hd Hdiv Hleast. split; [lia |].
  intros q Hq Hqd. apply (Hleast q); [lia |].
  exact (Z.divide_trans _ _ _ Hqd Hdiv).
Qed.

Lemma no_small_divisor_prime (d n : Z) :
  (2 <= d)%Z -> (1 < n)%Z -> (n < d * d)%Z ->
  (forall q, (2 <= q < d)%Z -> ~ (q | n)%Z) -> Z.prime n.
Proof.
  intros Hd Hn Hsquare Hleast. split; [exact Hn |].
  intros q Hq [c Hc].
  assert (Hcpos : (1 < c < n)%Z) by nia.
  destruct (Z_lt_le_dec q d) as [Hsmall | Hbig].
  - apply (Hleast q); [lia |]. exists c. exact Hc.
  - apply (Hleast c); [nia |]. exists q. lia.
Qed.

Lemma trial_division_spec (fuel : nat) (d n n0 : Z) (factors : list Z) :
  (2 <= d)%Z -> (1 <= n)%Z ->
  1 <= fuel -> (n + 1 - d * d < Z.of_nat fuel)%Z ->
  (product factors * n)%Z = n0 ->
  Forall Z.prime factors ->
  StronglySorted Z.le factors ->
  Forall (fun p => p < d)%Z factors ->
  (forall q, (2 <= q < d)%Z -> ~ (q | n)%Z) ->
  exists l,
    trial_division fuel d n factors = Some l /\
    product l = n0 /\ Forall Z.prime l /\ StronglySorted Z.le l.
Proof.
  revert d n factors.
  induction fuel as [| fuel IH];
    intros d n factors Hd Hn Hone Hfuel Hprod Hprimes Hsorted Hbelow Hleast;
    [lia |].
  cbn [trial_division]. destruct (Z.leb_spec (d * d) n) as [Hloop | Hexit].
  - destruct (divide_out_spec (S (Z.to_nat n)) d n factors Hd Hn ltac:(lia))
      as (n' & k & Hrun & Hn' & Hrange & Hnot).
    rewrite Hrun. apply IH.
    + lia.
    + lia.
    + lia.
    + nia.
    + rewrite product_app. rewrite <- Hprod, Hn' at 1. lia.
    + apply Forall_app. split; [exact Hprimes |].
      destruct k as [| k]; [constructor |].
      apply Forall_forall. intros p Hp.
      apply list_elem_of_In, repeat_spec in Hp. subst p.
      apply (least_divisor_prime d n Hd); [| exact Hleast].
      rewrite Hn'. apply Z.divide_mul_r, product_repeat_divides. lia.
    + apply StronglySorted_app_2.
      * intros x y Hx Hy. rewrite Forall_forall in Hbelow.
        specialize (Hbelow x Hx). cbn beta in Hbelow.
        apply list_elem_of_In, repeat_spec in Hy. lia.
      * exact Hsorted.
      * clear. induction k as [| k IHk]; [constructor |].
        cbn [repeat]. constructor; [exact IHk |].
        apply Forall_forall. intros y Hy.
        apply list_elem_of_In, repeat_spec in Hy. lia.
    + apply Forall_app. split.
      * eapply Forall_impl; [exact Hbelow |]. cbn beta. intros p Hp. lia.
      * apply Forall_forall. intros y Hy.
        apply list_elem_of_In, repeat_spec in Hy. lia.
    + intros q Hq Hdiv. destruct (Z.eq_dec q d) as [-> | Hne];
        [exact (Hnot Hdiv) |].
      apply (Hleast q); [lia |]. rewrite Hn'. apply Z.divide_mul_l, Hdiv.
  - destruct (Z.gtb_spec n 1) as [Hbig | Hsmall].
    + exists (factors ++ [n]). split; [reflexivity |]. split_and!.
      * rewrite product_app. cbn. lia.
      * apply Forall_app. split; [exact Hprimes |].
        constructor; [| constructor].
        apply (no_small_divisor_prime d n); assumption || lia.
      * apply StronglySorted_app_2; [| exact Hsorted | repeat constructor].
        intros x y Hx Hy. rewrite Forall_forall in Hbelow.
        specialize (Hbelow x Hx). cbn beta in Hbelow.
        apply list_elem_of_singleton in Hy. subst y.
        destruct (Z_lt_le_dec n d) as [Hlt | Hge]; [| lia].
        exfalso. apply (Hleast n); [lia | apply Z.divide_refl].
    + exists factors. split; [reflexivity |]. split_and!; [| assumption ..].
      assert (Hn1 : n = 1%Z) by lia. rewrite <- Hprod, Hn1. lia.
Qed.

(** X8: [prime_factorization_signature] terminates on every integer [n] and
    returns primes in non-decreasing order whose product is [n] when
    [n >= 1]; for [n <= 1] the result is the empty list (product 1). *)
Theorem prime_factorization_correct (n : Z) :
  exists factors,
    prime_factorization_signature n = Some factors /\
    product factors = Z.max n 1 /\ Forall Z.prime factors /\
    StronglySorted Z.le factors.
Proof.
  unfold prime_factorization_signature.
  destruct (Z_lt_le_dec n 1) as [Hlow | Hn].
  - exists []. split_and!; [| cbn; lia | constructor | constructor].
    cbn [trial_division].
    destruct (Z.leb_spec (2 * 2) n); [lia |].
    destruct (Z.gtb_spec n 1); [lia | reflexivity].
  - replace (Z.max n 1) with n by lia.
    apply trial_division_spec.
    + lia.
    + exact Hn.
    + lia.
    + lia.
    + cbn. lia.
    + constructor.
    + constructor.
    + constructor.
    + intros q Hq. lia.
Qed.

End CatalogFacts.

(** * Properties of the registry over its whole interface *)

Module RegistryFacts.
Import Privilege PrivilegeProps PrivilegeViews RegistryProps.

Section Steps.
Context `{Hashlib} `{Datetime}.

(** ** What each call leaves behind *)

Lemma register_model_taken (model_name created_by : string)
    (level : PrivilegeLevel) (custom : option (gmap string bool))
    (w : world priv_db) :
  is_Some (model_registry (store w) !! model_id_at model_name (clock w)) ->
  register_model model_name level created_by custom w
  = (Raise (IntegrityError "UNIQUE constraint failed: model_registry.model_id"),
     World (3 + clock w) (draws w) (store w)).
Proof.
  intros [r Htaken].
  unfold register_model, _generate_model_id, bind, now, gets, ret, raise.
  cbn [clock draws store fst snd].
  fold (model_id_at model_name (clock w)). rewrite Htaken.
  destruct w as [c d db]. reflexivity.
Qed.

Lemma register_model_free (model_name created_by : string)
    (level : PrivilegeLevel) (custom : option (gmap string bool))
    (w : world priv_db) :
  model_registry (store w) !! model_id_at model_name (clock w) = None ->
  register_model model_name level created_by custom w
  = (Return (model_id_at model_name (clock w)),
     World (4 + clock w) (draws w)
       {| model_registry :=
            <[model_id_at model_name (clock w) :=
                {| model_name := model_name;
                   privilege_level := value level;
                   custom_privileges :=
                     match custom with
                     | Some custom =>
                         if bool_decide (custom = ∅) then None else Some custom
                     | None => None
                     end;
                   created_at := 1 + clock w; created_by := created_by;
                   last_modified := 2 + clock w; is_active := true |}]>
              (model_registry (store w));
          privilege_audit :=
            privilege_audit (store w) ++
            [{| audit_id := S (length (privilege_audit (store w)));
                audit_model_id := model_id_at model_name (clock w);
                action := "REGISTERED"; old_privilege := None;
                new_privilege := value level;
                reason := "Model registered by " +:+ created_by;
                approved_by := created_by;
                timestamp := 3 + clock w |}];
          capability_usage := capability_usage (store w) |}).
Proof.
  intros Hfree.
  unfold register_model, _generate_model_id, _audit_action, bind, now, gets,
    modify, ret. cbn [clock draws store].
  fold (model_id_at model_name (clock w)). rewrite Hfree. reflexivity.
Qed.

Lemma request_escalation_world (model_id reason_ requested_by : string)
    (new_level : PrivilegeLevel) (w : world priv_db) :
  request_privilege_escalation model_id new_level reason_ requested_by w
  = (Return ("req_" +:+ model_id +:+ "_" +:+ timestamp_text (clock w)),
     World (2 + clock w) (draws w)
       {| model_registry := model_registry (store w);
          privilege_audit :=
            privilege_audit (store w) ++
            [{| audit_id := S (length (privilege_audit (store w)));
                audit_model_id := model_id;
                action := "ESCALATION_REQUESTED"; old_privilege := None;
                new_privilege := value new_level;
                reason := reason_; approved_by := requested_by;
                timestamp := 1 + clock w |}];
          capability_usage := capability_usage (store w) |}).
Proof. reflexivity. Qed.

Lemma approve_unregistered (model_id approved_by reason_ : string)
    (new_level : PrivilegeLevel) (w : world priv_db) :
  model_registry (store w) !! model_id = None ->
  approve_privilege_escalation model_id new_level approved_by reason_ w
  = (Return false, w).
Proof.
  intros Hnone. unfold approve_privilege_escalation, bind, gets, ret.
  cbn [fst snd]. rewrite Hnone. reflexivity.
Qed.

Lemma check_privilege_world (model_id cap : string) (w : world priv_db) :
  store (snd (check_privilege model_id cap w)) = store w /\
  clock w <= clock (snd (check_privilege model_id cap w)).
Proof.
  destruct (active_row (store w) model_id) as [r |] eqn:Hrow.
  - rewrite (PrivilegeFacts.check_privilege_active _ _ _ r Hrow). cbn.
    split; [reflexivity | lia].
  - rewrite (PrivilegeFacts.check_privilege_no_active_row _ _ _ Hrow). cbn.
    split; [reflexivity | lia].
Qed.

Lemma create_sandboxed_environment_world (model_id : string) (w : world priv_db) :
  snd (create_sandboxed_environment model_id w) = w.
Proof.
  unfold create_sandboxed_environment, bind.
  rewrite PrivilegeFacts.get_model_privileges_eq.
  destruct (active_row (store w) model_id) as [r |]; [| reflexivity].
  cbn [fmap option_fmap option_map].
  destruct (bool_decide _); reflexivity.
Qed.

Lemma get_privilege_report_world (model_id : string) (w : world priv_db) :
  snd (get_privilege_report model_id w) = w.
Proof.
  unfold get_privilege_report, bind, gets, ret. cbn [fst snd].
  destruct (model_registry (store w) !! model_id); reflexivity.
Qed.

(** ** One call *)

Lemma keeps_refl (w : world priv_db) : keeps w w.
Proof.
  unfold keeps. split_and!; [lia | reflexivity | |].
  - exists []. rewrite app_nil_r. reflexivity.
  - intros model_id r Hr. exists r. split_and!; auto.
Qed.

Lemma keeps_trans (w1 w2 w3 : world priv_db) :
  keeps w1 w2 -> keeps w2 w3 -> keeps w1 w3.
Proof.
  intros (Hc1 & Hu1 & [a1 Ha1] & Hr1) (Hc2 & Hu2 & [a2 Ha2] & Hr2).
  unfold keeps. split_and!.
  - lia.
  - congruence.
  - exists (a1 ++ a2). rewrite Ha2, Ha1, app_assoc. reflexivity.
  - intros model_id r Hr.
    destruct (Hr1 model_id r Hr) as (r' & Hr' & Hact & Hname & Hcus & Hat & Hby).
    destruct (Hr2 model_id r' Hr')
      as (r'' & Hr'' & Hact' & Hname' & Hcus' & Hat' & Hby').
    exists r''. split_and!; congruence.
Qed.

Lemma keeps_same_store (w w' : world priv_db) :
  store w' = store w -> clock w <= clock w' -> keeps w w'.
Proof.
  intros Hstore Hclock. unfold keeps. rewrite Hstore.
  split_and!; [exact Hclock | reflexivity | |].
  - exists []. rewrite app_nil_r. reflexivity.
  - intros model_id r Hr. exists r. split_and!; auto.
Qed.

Lemma run_keeps (c : call) (w : world priv_db) : keeps w (run c w).
Proof.
  destruct c as [n l by_ custom | m cap | m | m l why by_ | m l by_ why | m | m];
    cbn [run].
  - destruct (model_registry (store w) !! model_id_at n (clock w)) as [r0 |]
      eqn:Hid.
    + rewrite register_model_taken by (rewrite Hid; eauto).
      apply keeps_same_store; cbn; [reflexivity | lia].
    + rewrite (register_model_free _ _ _ _ _ Hid).
      unfold keeps. cbn [snd clock store capability_usage privilege_audit
        model_registry].
      split_and!; [lia | reflexivity | eauto |].
      intros model_id r Hr. exists r. split; [| split_and!; auto].
      rewrite lookup_insert_ne; [exact Hr |]. intros <-. congruence.
  - destruct (check_privilege_world m cap w) as [Hstore Hclock].
    apply keeps_same_store; assumption.
  - rewrite PrivilegeFacts.get_model_privileges_eq. apply keeps_refl.
  - rewrite request_escalation_world.
    unfold keeps. cbn [snd clock store capability_usage privilege_audit
      model_registry].
    split_and!; [lia | reflexivity | eauto |].
    intros model_id r Hr. exists r. split_and!; auto.
  - destruct (model_registry (store w) !! m) as [r0 |] eqn:Hid.
    + rewrite (PrivilegeFacts.approve_registered _ _ _ _ _ r0 Hid).
      unfold keeps. cbn [snd clock store capability_usage privilege_audit
        model_registry].
      split_and!; [lia | reflexivity | eauto |].
      intros model_id r Hr.
      destruct (decide (model_id = m)) as [-> | Hne].
      * exists (escalated (value l) (clock w) r). split; [| cbn; split_and!; auto].
        rewrite lookup_alter, decide_True by reflexivity. rewrite Hr. reflexivity.
      * exists r. split; [| split_and!; auto].
        rewrite lookup_alter_ne by congruence. exact Hr.
    + rewrite (approve_unregistered _ _ _ _ _ Hid). apply keeps_refl.
  - rewrite create_sandboxed_environment_world. apply keeps_refl.
  - rewrite get_privilege_report_world. apply keeps_refl.
Qed.

Lemma run_all_invariant (P : world priv_db -> Prop) (calls : list call) :
  (forall c w, P w -> P (run c w)) ->
  forall w, P w -> P (run_all calls w).
Proof.
  intros Hstep. induction calls as [| c calls IH]; intros w Hw; [exact Hw |].
  cbn [run_all fold_left]. apply IH, Hstep, Hw.
Qed.

(** ** The audit log and the registry of a history *)

Lemma seq_snoc (start len : nat) :
  seq start (S len) = seq start len ++ [start + len].
Proof. rewrite seq_S. reflexivity. Qed.

Lemma well_formed_later (w : world priv_db) (t : nat) :
  well_formed w -> clock w <= t ->
  well_formed (World t (draws w) (store w)).
Proof.
  intros (Hids & Hsorted & Hbefore & Hreg) Hclock.
  unfold well_formed. cbn [store clock]. split_and!; try assumption.
  eapply Forall_impl; [exact Hbefore |]. cbn beta. intros a Ha. lia.
Qed.

Lemma well_formed_append (w : world priv_db) (t : nat) (row : audit_row)
    (registry : gmap string model_row) :
  well_formed w -> clock w <= timestamp row -> timestamp row < t ->
  audit_id row = S (length (privilege_audit (store w))) ->
  (forall model_id r,
     registry !! model_id = Some r ->
     is_active r = true /\ exists level, privilege_level r = value level) ->
  well_formed
    (World t (draws w)
       {| model_registry := registry;
          privilege_audit := privilege_audit (store w) ++ [row];
          capability_usage := capability_usage (store w) |}).
Proof.
  intros (Hids & Hsorted & Hbefore & _) Hafter Hclock Hid Hreg.
  unfold well_formed. cbn [store clock privilege_audit model_registry].
  split_and!.
  - rewrite map_app, length_app, Nat.add_1_r, seq_snoc, Hids. cbn.
    rewrite Hid. reflexivity.
  - rewrite map_app. apply StronglySorted_app_2.
    + intros x y Hx Hy. apply list_elem_of_In, in_map_iff in Hx.
      destruct Hx as (a & <- & Ha). cbn in Hy.
      apply list_elem_of_singleton in Hy. subst y.
      rewrite Forall_forall in Hbefore.
      specialize (Hbefore a (proj2 (list_elem_of_In _ _) Ha)). cbn beta in Hbefore.
      lia.
    + exact Hsorted.
    + repeat constructor.
  - apply Forall_app. split.
    + eapply Forall_impl; [exact Hbefore |]. cbn beta. intros a Ha. lia.
    + constructor; [exact Hclock | constructor].
  - exact Hreg.
Qed.

Lemma run_well_formed (c : call) (w : world priv_db) :
  well_formed w -> well_formed (run c w).
Proof.
  intros Hw. pose proof Hw as (_ & _ & _ & Hreg).
  destruct c as [n l by_ custom | m cap | m | m l why by_ | m l by_ why | m | m];
    cbn [run].
  - destruct (model_registry (store w) !! model_id_at n (clock w)) as [r0 |]
      eqn:Hid.
    + rewrite register_model_taken by (rewrite Hid; eauto).
      apply well_formed_later; [exact Hw | lia].
    + rewrite (register_model_free _ _ _ _ _ Hid). cbn [snd].
      apply (well_formed_append w); cbn; try lia; try exact Hw.
      intros id0 r Hr.
      destruct (decide (id0 = model_id_at n (clock w))) as [-> | Hne].
      * rewrite lookup_insert_eq in Hr. injection Hr as <-. cbn. eauto.
      * rewrite lookup_insert_ne in Hr by congruence. eauto.
  - destruct (active_row (store w) m) as [r |] eqn:Hrow.
    + rewrite (PrivilegeFacts.check_privilege_active _ _ _ r Hrow). cbn [snd].
      apply well_formed_later; [exact Hw | lia].
    + rewrite (PrivilegeFacts.check_privilege_no_active_row _ _ _ Hrow).
      exact Hw.
  - rewrite PrivilegeFacts.get_model_privileges_eq. exact Hw.
  - rewrite request_escalation_world. cbn [snd].
    apply (well_formed_append w); cbn; try lia; try exact Hw. exact Hreg.
  - destruct (model_registry (store w) !! m) as [r0 |] eqn:Hid.
    + rewrite (PrivilegeFacts.approve_registered _ _ _ _ _ r0 Hid). cbn [snd].
      apply (well_formed_append w); cbn; try lia; try exact Hw.
      intros id0 r Hr.
      destruct (decide (id0 = m)) as [-> | Hne].
      * rewrite lookup_alter, decide_True in Hr by reflexivity.
        rewrite Hid in Hr. injection Hr as <-. cbn.
        split; [apply (Hreg m r0 Hid) | eauto].
      * rewrite lookup_alter_ne in Hr by congruence. eauto.
    + rewrite (approve_unregistered _ _ _ _ _ Hid). exact Hw.
  - rewrite create_sandboxed_environment_world. exact Hw.
  - rewrite get_privilege_report_world. exact Hw.
Qed.

Lemma new_database_well_formed (t d : nat) : well_formed (World t d empty_db).
Proof.
  unfold well_formed. cbn. split_and!; [reflexivity | constructor | constructor |].
  intros model_id r Hr. rewrite lookup_empty in Hr. discriminate.
Qed.

End Steps.

(** ** Sorting the audit rows *)

Lemma insert_newest_first_oldest (x : audit_row) (sorted : list audit_row) :
  Forall (fun y => timestamp x < timestamp y) sorted ->
  insert_newest_first x sorted = sorted ++ [x].
Proof.
  induction 1 as [| y sorted Hy _ IH]; [reflexivity |]. cbn.
  destruct (Nat.leb_spec (timestamp y) (timestamp x)) as [Hle | _]; [lia |].
  rewrite IH. reflexivity.
Qed.

Lemma newest_first_rev (rows : list audit_row) :
  StronglySorted (fun a b => timestamp a < timestamp b) rows ->
  newest_first rows = rev rows.
Proof.
  induction 1 as [| x rows _ IH Hx]; [reflexivity |].
  cbn [newest_first fold_right rev]. fold (newest_first rows). rewrite IH.
  apply insert_newest_first_oldest.
  apply Forall_forall. intros y Hy. rewrite Forall_forall in Hx. apply Hx.
  apply list_elem_of_In. apply list_elem_of_In, in_rev in Hy. exact Hy.
Qed.

Lemma sorted_by_timestamp (rows : list audit_row) :
  StronglySorted lt (map timestamp rows) ->
  StronglySorted (fun a b => timestamp a < timestamp b) rows.
Proof.
  induction rows as [| x rows IH]; [constructor |]. cbn [map].
  intros Hsorted. apply StronglySorted_inv in Hsorted.
  destruct Hsorted as [Hrest Hx]. constructor; [apply IH, Hrest |].
  apply Forall_forall. intros y Hy. rewrite Forall_forall in Hx. apply Hx.
  apply list_elem_of_In, in_map, list_elem_of_In, Hy.
Qed.

Lemma sorted_filter {A} (R : A -> A -> Prop) (f : A -> bool) (l : list A) :
  StronglySorted R l -> StronglySorted R (List.filter f l).
Proof.
  induction 1 as [| x l _ IH Hx]; [constructor |]. cbn.
  destruct (f x); [| exact IH]. constructor; [exact IH |].
  apply Forall_forall. intros y Hy. rewrite Forall_forall in Hx. apply Hx.
  apply list_elem_of_In. apply list_elem_of_In, filter_In in Hy. apply Hy.
Qed.

(** ** The keys of a capability map *)

Lemma keys_partition (f : string * bool -> bool) (l : list (string * bool)) :
  Permutation (map fst (List.filter f l)
               ++ map fst (List.filter (fun kv => negb (f kv)) l))
              (map fst l).
Proof.
  induction l as [| kv l IH]; [reflexivity |]. cbn.
  destruct (f kv); cbn.
  - apply perm_skip, IH.
  - rewrite <- Permutation_middle. apply perm_skip, IH.
Qed.

Lemma keys_with_value (m : gmap string bool) (b : bool) (cap : string) :
  cap ∈ map fst (List.filter (fun kv => Bool.eqb (snd kv) b) (map_to_list m))
  <-> m !! cap = Some b.
Proof.
  rewrite list_elem_of_In, in_map_iff. split.
  - intros ([k v] & <- & Hin). apply filter_In in Hin. destruct Hin as [Hin Hv].
    cbn in Hv. apply Bool.eqb_prop in Hv. subst v.
    apply elem_of_map_to_list, list_elem_of_In, Hin.
  - intros Hcap. exists (cap, b). split; [reflexivity |].
    apply filter_In. split.
    + apply list_elem_of_In, elem_of_map_to_list, Hcap.
    + cbn. apply Bool.eqb_reflx.
Qed.

(** ** Registration *)

(** X17: [register_model] at an id that is free returns the id, and the
    model then has the capability map of its level (RESTRICTED has the
    map of TRAINING) overridden by the custom privileges, one more audit
    row, REGISTERED, and leaves the other models as they were.  At an id
    that is taken it raises [sqlite3.IntegrityError] and changes no
    table: no audit row is written. *)
Theorem register_model_outcome `{Hashlib} `{Datetime}
    (model_name created_by : string) (level : PrivilegeLevel)
    (custom : option (gmap string bool)) (w : world priv_db) :
  let model_id := model_id_at model_name (clock w) in
  let registration := register_model model_name level created_by custom w in
  match model_registry (store w) !! model_id with
  | Some _ =>
      fst registration
      = Raise (IntegrityError "UNIQUE constraint failed: model_registry.model_id")
      /\ store (snd registration) = store w
  | None =>
      fst registration = Return model_id /\
      get_model_privileges model_id (snd registration)
      = (Return (Some (default ∅ custom
                       ∪ match level with
                         | DESKTOP => DESKTOP_PRIVILEGES
                         | TRAINING | RESTRICTED => TRAINING_PRIVILEGES
                         end)),
         snd registration) /\
      audit_of model_id (store (snd registration))
      = audit_of model_id (store w) ++
        [{| audit_id := S (length (privilege_audit (store w)));
            audit_model_id := model_id;
            action := "REGISTERED"; old_privilege := None;
            new_privilege := value level;
            reason := "Model registered by " +:+ created_by;
            approved_by := created_by;
            timestamp := 3 + clock w |}] /\
      (forall other, other <> model_id ->
         model_registry (store (snd registration)) !! other
         = model_registry (store w) !! other)
  end.
Proof.
  intros model_id registration. unfold registration.
  destruct (model_registry (store w) !! model_id) as [r0 |] eqn:Hid.
  - rewrite register_model_taken by (fold model_id; rewrite Hid; eauto).
    split; reflexivity.
  - rewrite (register_model_free _ _ _ _ _ Hid). fold model_id.
    cbn [fst snd store]. split_and!.
    + reflexivity.
    + rewrite PrivilegeFacts.get_model_privileges_eq. unfold active_row.
      cbn [store model_registry]. rewrite lookup_insert_eq. cbn [is_active].
      cbn [fmap option_fmap option_map]. do 3 f_equal.
      unfold effective_privileges. cbn [custom_privileges privilege_level].
      assert (Hbase : base_privileges (value level)
                      = match level with
                        | DESKTOP => DESKTOP_PRIVILEGES
                        | TRAINING | RESTRICTED => TRAINING_PRIVILEGES
                        end) by (destruct level; reflexivity).
      rewrite Hbase. destruct custom as [custom |]; cbn [default from_option]; unfold id.
      * destruct (bool_decide_reflect (custom = ∅)) as [-> | _];
          [symmetry; apply map_empty_union | reflexivity].
      * symmetry. apply map_empty_union.
    + unfold audit_of. cbn [privilege_audit]. rewrite List.filter_app. cbn.
      rewrite String.eqb_refl. reflexivity.
    + intros other Hother. cbn [model_registry].
      apply lookup_insert_ne. congruence.
Qed.

(** ** Escalation *)

(** X18: An approval replaces the level and nothing else: the custom
    privileges of the row go on overriding the capability map of the
    new level.  So for an active model a capability that the custom
    privileges set keeps its value through every approval, also one
    that lowers the level. *)
Theorem approve_keeps_custom_overrides
    (model_id approved_by reason_ : string) (new_level : PrivilegeLevel)
    (w : world priv_db) (r : model_row) :
  model_registry (store w) !! model_id = Some r ->
  is_active r = true ->
  let w' :=
    snd (approve_privilege_escalation model_id new_level approved_by reason_ w) in
  get_model_privileges model_id w'
  = (Return (Some (default ∅ (custom_privileges r)
                   ∪ base_privileges (value new_level))), w') /\
  forall custom cap b,
    custom_privileges r = Some custom -> custom !! cap = Some b ->
    exists m, get_model_privileges model_id w' = (Return (Some m), w') /\
              granted m cap = b.
Proof.
  intros Hreg Hact w'.
  assert (Hrow : active_row (store w') model_id
                 = Some (escalated (value new_level) (clock w) r)).
  { unfold w'. rewrite (PrivilegeFacts.approve_registered _ _ _ _ _ r Hreg).
    unfold active_row. cbn [snd store model_registry].
    rewrite lookup_alter, decide_True by reflexivity. rewrite Hreg. cbn.
    rewrite Hact. reflexivity. }
  assert (Hmap : get_model_privileges model_id w'
                 = (Return (Some (default ∅ (custom_privileges r)
                                  ∪ base_privileges (value new_level))), w')).
  { rewrite PrivilegeFacts.get_model_privileges_eq, Hrow.
    cbn [fmap option_fmap option_map]. do 3 f_equal.
    unfold effective_privileges. cbn [escalated custom_privileges privilege_level].
    destruct (custom_privileges r); cbn [default from_option]; unfold id;
      [reflexivity | symmetry; apply map_empty_union]. }
  split; [exact Hmap |].
  intros custom cap b Hcustom Hcap. eexists. split; [exact Hmap |].
  rewrite Hcustom. cbn [default from_option]. unfold id, granted.
  rewrite (lookup_union_Some_l _ _ _ _ Hcap). reflexivity.
Qed.

Lemma approve_keeps_custom_overrides_witness :
  exists m,
    get_model_privileges "m2"
      (snd (approve_privilege_escalation
              "m2" TRAINING "admin" "demoted" one_custom_model))
    = (Return (Some m),
       snd (approve_privilege_escalation
              "m2" TRAINING "admin" "demoted" one_custom_model)) /\
    granted m "data_export" = true /\ granted m "deployment" = false.
Proof.
  destruct (approve_keeps_custom_overrides
              "m2" "admin" "demoted" TRAINING one_custom_model custom_model)
    as [Hmap _]; [vm_compute; reflexivity | reflexivity |].
  eexists. split; [exact Hmap |]. split; vm_compute; reflexivity.
Defined.

(** ** The sandbox *)

(** X19: [create_sandboxed_environment] changes nothing.  For an id without
    an active row it answers "Model not found"; for an active model it
    lists every key of the capability map once: in
    ["allowed_operations"] the keys set to true, in
    ["blocked_operations"] the keys set to false. *)
Theorem sandbox_partitions (model_id : string) (w : world priv_db) :
  snd (create_sandboxed_environment model_id w) = w /\
  match active_row (store w) model_id with
  | None =>
      fst (create_sandboxed_environment model_id w)
      = Return (SandboxError "Model not found")
  | Some r =>
      exists allowed blocked,
        fst (create_sandboxed_environment model_id w)
        = Return (Sandboxed model_id allowed blocked) /\
        List.NoDup (allowed ++ blocked) /\
        (forall cap, cap ∈ allowed <-> effective_privileges r !! cap = Some true) /\
        (forall cap, cap ∈ blocked <-> effective_privileges r !! cap = Some false)
  end.
Proof.
  split; [apply create_sandboxed_environment_world |].
  unfold create_sandboxed_environment, bind.
  rewrite PrivilegeFacts.get_model_privileges_eq.
  destruct (active_row (store w) model_id) as [r |]; [| reflexivity].
  cbn [fmap option_fmap option_map].
  rewrite bool_decide_eq_false_2
    by apply PrivilegeFacts.effective_privileges_nonempty.
  eexists _, _. split; [reflexivity |]. split_and!.
  - eapply Permutation_NoDup; [symmetry; apply keys_partition |].
    apply NoDup_ListNoDup, NoDup_fst_map_to_list.
  - intros cap. rewrite <- keys_with_value.
    assert (Hsame : forall kv : string * bool, snd kv = Bool.eqb (snd kv) true)
      by (intros [k []]; reflexivity).
    rewrite (filter_ext _ _ Hsame). reflexivity.
  - intros cap. rewrite <- keys_with_value.
    assert (Hsame : forall kv : string * bool,
              negb (snd kv) = Bool.eqb (snd kv) false)
      by (intros [k []]; reflexivity).
    rewrite (filter_ext _ _ Hsame). reflexivity.
Qed.

(** ** The report *)

(** X20: [get_privilege_report] changes nothing and answers for every
    registered model, deactivated or not.  When the timestamps of the
    audit log grow strictly along its rows, the ["recent_audit_events"]
    are the last ten audit rows of the model, the newest first. *)
Theorem report_recent_events (model_id : string) (w : world priv_db)
    (r : model_row) :
  model_registry (store w) !! model_id = Some r ->
  StronglySorted lt (map timestamp (privilege_audit (store w))) ->
  get_privilege_report model_id w
  = (Return
       (Report model_id (model_name r) (privilege_level r) (created_at r)
          (is_active r)
          (map usage_stat_of
             (List.filter (fun u => String.eqb (usage_model_id u) model_id)
                          (capability_usage (store w))))
          (map audit_event_of
             (firstn 10 (rev (audit_of model_id (store w)))))),
     w).
Proof.
  intros Hreg Hsorted.
  unfold get_privilege_report, bind, gets, ret. cbn [fst snd]. rewrite Hreg.
  fold (audit_of model_id (store w)).
  rewrite newest_first_rev; [reflexivity |].
  apply sorted_filter, sorted_by_timestamp, Hsorted.
Qed.

Lemma report_recent_events_witness :
  match fst (get_privilege_report "pattern_lear" after_escalation) with
  | Return (Report _ _ level _ _ _ events) =>
      level = "desktop" /\
      map event_action events
      = ["ESCALATION_APPROVED"; "ESCALATION_REQUESTED"; "REGISTERED"]
  | _ => False
  end.
Proof.
  rewrite (report_recent_events "pattern_lear" after_escalation
             {| model_name := "pattern_learner"; privilege_level := "desktop";
                custom_privileges := None; created_at := 1;
                created_by := "test_script"; last_modified := 6;
                is_active := true |}).
  - vm_compute. split; reflexivity.
  - vm_compute. reflexivity.
  - vm_compute. repeat constructor.
Defined.

(** ** Histories *)

(** X21: Whatever public methods are called, in whatever order, and whether
    they return or raise: no model is removed, renamed, activated or
    deactivated, no custom privileges are changed, the audit log only
    grows at its end, and no usage counter is ever written. *)
Theorem registry_history_keeps `{Hashlib} `{Datetime}
    (calls : list call) (w : world priv_db) :
  keeps w (run_all calls w).
Proof.
  apply (run_all_invariant (keeps w)); [| apply keeps_refl].
  intros c w' Hw'. apply (keeps_trans w w' _ Hw'), run_keeps.
Qed.


(** X23: On a new database, after any calls of the public methods,
    [check_privilege] returns [False] for the ids that are not
    registered and raises [sqlite3.OperationalError] for all the others:
    it never returns [True], for no model and no capability. *)
Theorem check_privilege_after_any_history `{Hashlib} `{Datetime}
    (calls : list call) (t d : nat) (model_id cap : string) :
  let w := run_all calls (World t d empty_db) in
  check_privilege model_id cap w
  = match model_registry (store w) !! model_id with
    | None => (Return false, w)
    | Some _ =>
        (Raise upsert_rejected, World (2 + clock w) (draws w) (store w))
    end.
Proof.
  intros w.
  assert (Hw : well_formed w).
  { apply (run_all_invariant well_formed);
      [apply run_well_formed | apply new_database_well_formed]. }
  destruct Hw as (_ & _ & _ & Hreg).
  destruct (model_registry (store w) !! model_id) as [r |] eqn:Hid.
  - destruct (Hreg model_id r Hid) as [Hact _].
    apply (PrivilegeFacts.check_privilege_active _ _ _ r).
    unfold active_row. rewrite Hid, Hact. reflexivity.
  - apply PrivilegeFacts.check_privilege_no_active_row.
    unfold active_row. rewrite Hid. reflexivity.
Qed.

End RegistryFacts.

(** * Properties of specialists and of the queue they serve *)

Module LayerFacts.
Import Intelligence IntelligenceProps LayerProps.

Lemma with_privilege_system_same (l : layer) :
  with_privilege_system (privilege_system l) l = l.
Proof. destruct l. reflexivity. Qed.

(** The capability check, seen from the layer. *)
Lemma check_in_layer (model_id cap : string) (w : world layer) :
  in_privilege_system (Privilege.check_privilege model_id cap) w
  = match PrivilegeProps.active_row (privilege_system (store w)) model_id with
    | None => (Return false, w)
    | Some _ =>
        (Raise PrivilegeProps.upsert_rejected,
         World (2 + clock w) (draws w) (store w))
    end.
Proof.
  unfold in_privilege_system, lift.
  set (wp := World (clock w) (draws w) (privilege_system (store w))).
  destruct (PrivilegeProps.active_row (privilege_system (store w)) model_id)
    as [r |] eqn:Hrow.
  - rewrite (PrivilegeFacts.check_privilege_active _ _ wp r Hrow).
    cbn [clock draws store wp]. rewrite with_privilege_system_same. reflexivity.
  - rewrite (PrivilegeFacts.check_privilege_no_active_row _ _ wp Hrow).
    cbn [clock draws store wp]. rewrite with_privilege_system_same.
    destruct w. reflexivity.
Qed.

(** ** Dicts and searches *)

Lemma dict_get_set {V} (k : string) (v : V) (d : list (string * V)) :
  dict_get k (dict_set k v d) = Some v.
Proof.
  induction d as [| [k' v'] d IH]; cbn.
  - rewrite String.eqb_refl. reflexivity.
  - destruct (String.eqb k' k) eqn:Hk; cbn.
    + rewrite String.eqb_refl. reflexivity.
    + rewrite Hk. exact IH.
Qed.

Lemma dict_set_in {V} (k : string) (v : V) (d : list (string * V)) :
  In (k, v) (dict_set k v d).
Proof.
  induction d as [| [k' v'] d IH]; cbn; [auto |].
  destruct (String.eqb k' k); cbn; auto.
Qed.

Lemma find_some_of {A} (f : A -> bool) (l : list A) (a : A) :
  In a l -> f a = true -> exists b, List.find f l = Some b.
Proof.
  intros Hin Hf. destruct (List.find f l) as [b |] eqn:Hfind; [eauto |].
  rewrite (find_none f l Hfind a Hin) in Hf. discriminate.
Qed.

Lemma find_none_of {A} (f : A -> bool) (l : list A) :
  (forall a, In a l -> f a = false) -> List.find f l = None.
Proof.
  intros Hall. induction l as [| a l IH]; [reflexivity |]. cbn.
  rewrite (Hall a (or_introl eq_refl)). apply IH.
  intros b Hb. apply Hall. right. exact Hb.
Qed.

(** ** The specialist with most patterns *)

Lemma most_patterns_first_greatest (before : list (string * specialist))
    (best : string * specialist) (candidates : list (string * specialist))
    (i : nat) :
  first_greatest before i best ->
  exists i', first_greatest (before ++ candidates) i'
               (most_patterns best candidates).
Proof.
  revert before best i.
  induction candidates as [| c candidates IH]; intros before best i Hbest.
  - exists i. rewrite app_nil_r. exact Hbest.
  - cbn [most_patterns]. destruct Hbest as [Hi Hall].
    assert (Hlt : i < length before) by (apply lookup_lt_is_Some; eauto).
    replace (before ++ c :: candidates) with ((before ++ [c]) ++ candidates)
      by (rewrite <- app_assoc; reflexivity).
    destruct (Nat.ltb_spec (length (patterns (snd best)))
                           (length (patterns (snd c)))) as [Hmore | Hless].
    + apply (IH (before ++ [c]) c (length before)). split.
      * rewrite lookup_app_r by lia. rewrite Nat.sub_diag. reflexivity.
      * intros j e Hj.
        destruct (Nat.lt_ge_cases j (length before)) as [Hin | Hout].
        -- rewrite lookup_app_l in Hj by exact Hin.
           destruct (Hall j e Hj) as [Hle _]. lia.
        -- rewrite lookup_app_r in Hj by exact Hout.
           destruct (j - length before) as [| n] eqn:Hn; [| destruct n; discriminate].
           injection Hj as <-. lia.
    + apply (IH (before ++ [c]) best i). split.
      * rewrite lookup_app_l by exact Hlt. exact Hi.
      * intros j e Hj.
        destruct (Nat.lt_ge_cases j (length before)) as [Hin | Hout].
        -- rewrite lookup_app_l in Hj by exact Hin. apply (Hall j e Hj).
        -- rewrite lookup_app_r in Hj by exact Hout.
           destruct (j - length before) as [| n] eqn:Hn; [| destruct n; discriminate].
           injection Hj as <-. lia.
Qed.

Lemma most_patterns_spec (c : string * specialist)
    (candidates : list (string * specialist)) :
  exists i, first_greatest (c :: candidates) i (most_patterns c candidates).
Proof.
  apply (most_patterns_first_greatest [c] c candidates 0).
  split; [reflexivity |]. intros [| j] e Hj; [| discriminate].
  injection Hj as <-. lia.
Qed.

Section Layer.
Context `{Hashlib} `{Datetime} `{Random} `{Json}.

Lemma train_outcome (specialist_id : string) (t : task) (w : world layer) :
  train_specialist_on_task specialist_id t w
  = match dict_get specialist_id (active_specialists (store w)) with
    | None => (Return (ErrorResult "Specialist not found"), w)
    | Some s =>
        match PrivilegeProps.active_row (privilege_system (store w))
                (model_id s) with
        | None =>
            (Return (ErrorResult "Specialist lacks training privileges"), w)
        | Some _ =>
            (Raise PrivilegeProps.upsert_rejected,
             World (2 + clock w) (draws w) (store w))
        end
    end.
Proof.
  unfold train_specialist_on_task. unfold bind at 1. unfold gets at 1.
  cbn [fst snd].
  destruct (dict_get specialist_id (active_specialists (store w))) as [s |];
    [| reflexivity].
  unfold bind at 1. rewrite check_in_layer.
  destruct (PrivilegeProps.active_row _ _); reflexivity.
Qed.

(** ** Creating specialists *)

Lemma create_specialist_fresh (name d : string)
    (level : Privilege.PrivilegeLevel) (w : world layer) :
  let sid := id_at name (clock w) in
  let mid := PrivilegeProps.model_id_at name (1 + clock w) in
  Privilege.model_registry (privilege_system (store w)) !! mid = None ->
  specialists (store w) !! sid = None ->
  create_specialist name (Some d) level w
  = (Return sid,
     World (7 + clock w) (draws w)
       {| privilege_system :=
            with_identity name level (1 + clock w) (privilege_system (store w));
          active_specialists :=
            dict_set sid
              {| id := sid; spec_name := name; spec_domain := Some d;
                 patterns := _get_domain_patterns (Some d); model_id := mid;
                 spec_privilege_level := level |}
              (active_specialists (store w));
          specialists :=
            <[sid := {| row_name := name; row_domain := d;
                        row_patterns := _get_domain_patterns (Some d);
                        row_privilege_level := Privilege.value level;
                        performance_score := 0;
                        row_created_at := 5 + clock w;
                        last_active := 6 + clock w;
                        compression_ratio := 1000;
                        row_is_active := true |}]> (specialists (store w));
          pattern_discoveries := pattern_discoveries (store w);
          task_queue := task_queue (store w) |}).
Proof.
  intros sid mid Hmid Hsid.
  unfold create_specialist, _generate_id. unfold bind at 1 2. unfold now at 1.
  unfold ret at 1. cbn [fst snd clock draws store]. fold sid.
  unfold bind at 1. unfold in_privilege_system, lift. cbn [clock draws store].
  rewrite PrivilegeFacts.register_model_fresh by exact Hmid.
  cbn [fst snd clock draws store]. fold mid.
  unfold bind, now, gets, modify, ret. cbn [fst snd clock draws store].
  unfold sid, id_at in Hsid |- *. cbn [specialists with_privilege_system].
  rewrite Hsid. reflexivity.
Qed.

Lemma create_specialist_without_domain (name : string)
    (level : Privilege.PrivilegeLevel) (w : world layer) :
  exists msg w',
    create_specialist name None level w = (Raise (IntegrityError msg), w') /\
    same_tables (store w) (store w') /\
    (Privilege.model_registry (privilege_system (store w))
       !! PrivilegeProps.model_id_at name (1 + clock w) = None ->
     privilege_system (store w')
     = with_identity name level (1 + clock w) (privilege_system (store w))).
Proof.
  change (1 + clock w) with (S (clock w)).
  unfold create_specialist, _generate_id. unfold bind at 1 2. unfold now at 1.
  unfold ret at 1. cbn [fst snd clock draws store].
  unfold bind at 1. unfold in_privilege_system, lift. cbn [clock draws store].
  destruct (Privilege.model_registry (privilege_system (store w))
              !! PrivilegeProps.model_id_at name (S (clock w))) as [r |] eqn:Hmid.
  - rewrite RegistryFacts.register_model_taken
      by (cbn [clock store]; rewrite Hmid; eauto).
    eexists _, _. split; [reflexivity |]. cbn [store clock draws].
    rewrite with_privilege_system_same.
    split; [unfold same_tables; auto | discriminate].
  - rewrite PrivilegeFacts.register_model_fresh by exact Hmid.
    eexists _, _. split; [reflexivity |].
    cbn [fst snd clock draws store].
    split; [unfold same_tables; auto |]. intros _. reflexivity.
Qed.

Lemma create_specialist_queue (name : string) (dom : option string)
    (level : Privilege.PrivilegeLevel) (w : world layer) :
  task_queue (store (snd (create_specialist name dom level w)))
  = task_queue (store w).
Proof.
  destruct dom as [d |].
  - unfold create_specialist, _generate_id. unfold bind at 1 2. unfold now at 1.
    unfold ret at 1. cbn [fst snd clock draws store].
    unfold bind at 1. unfold in_privilege_system, lift. cbn [clock draws store].
    destruct (Privilege.model_registry (privilege_system (store w))
                !! PrivilegeProps.model_id_at name (S (clock w))) as [r |]
      eqn:Hmid.
    + rewrite RegistryFacts.register_model_taken
        by (cbn [clock store]; rewrite Hmid; eauto).
      reflexivity.
    + rewrite PrivilegeFacts.register_model_fresh by exact Hmid.
      cbn [fst snd clock draws store].
      unfold bind, now, gets, modify, ret. cbn [fst snd clock draws store].
      cbn [specialists with_privilege_system].
      destruct (specialists (store w) !! _); reflexivity.
  - destruct (create_specialist_without_domain name level w)
      as (msg & w' & -> & (_ & _ & _ & Hqueue) & _).
    exact Hqueue.
Qed.

End Layer.

(** ** Training *)

(** X24: [train_specialist_on_task] never trains.  For an unknown specialist
    and for a specialist whose privilege identity has no active row it
    returns an error payload and changes nothing; for every other
    specialist the capability check raises [sqlite3.OperationalError].
    No success payload is ever returned, and the patterns of the
    specialist and the three tables stay as they were. *)
Theorem train_specialist_never_trains `{Hashlib} `{Datetime} `{Random} `{Json}
    (specialist_id : string) (t : task) (w : world layer) :
  let training := train_specialist_on_task specialist_id t w in
  store (snd training) = store w /\
  (forall sid found total ratio,
     fst training <> Return (Trained sid found total ratio)) /\
  fst training
  = match dict_get specialist_id (active_specialists (store w)) with
    | None => Return (ErrorResult "Specialist not found")
    | Some s =>
        match PrivilegeProps.active_row (privilege_system (store w))
                (model_id s) with
        | None => Return (ErrorResult "Specialist lacks training privileges")
        | Some _ => Raise PrivilegeProps.upsert_rejected
        end
    end.
Proof.
  intros training. unfold training. rewrite train_outcome.
  destruct (dict_get specialist_id (active_specialists (store w))) as [s |].
  - destruct (PrivilegeProps.active_row _ _); cbn;
      (split_and!; [reflexivity | discriminate | reflexivity]).
  - cbn. split_and!; [reflexivity | discriminate | reflexivity].
Qed.

(** ** Choosing a specialist *)

(** X25: [_find_best_specialist] changes nothing.  It returns [None] when no
    active specialist has the domain, and otherwise the id of the first
    specialist, in insertion order, among those of the domain that have
    the most patterns. *)
Theorem find_best_specialist_first_greatest (d : string) (w : world layer) :
  snd (_find_best_specialist d w) = w /\
  match of_domain d (active_specialists (store w)) with
  | [] => fst (_find_best_specialist d w) = Return None
  | _ :: _ =>
      exists i best,
        fst (_find_best_specialist d w) = Return (Some (fst best)) /\
        first_greatest (of_domain d (active_specialists (store w))) i best
  end.
Proof.
  unfold _find_best_specialist, bind, gets, ret. cbn [fst snd].
  fold (of_domain d (active_specialists (store w))).
  destruct (of_domain d (active_specialists (store w))) as [| c cs].
  - split; reflexivity.
  - split; [reflexivity |].
    destruct (most_patterns_spec c cs) as [i Hbest].
    exists i, (most_patterns c cs). split; [reflexivity | exact Hbest].
Qed.

(** ** A created specialist *)

(** X26: When the two generated ids are free, [create_specialist] returns
    the specialist id and leaves: an entry of [active_specialists] with
    the base patterns of the domain, a row of [specialists] with the
    compression ratio 1000, and an active privilege identity of the
    requested level.  From then on a task of the domain finds a
    specialist without creating one, and training the new specialist
    raises [sqlite3.OperationalError], whatever the task. *)
Theorem create_specialist_outcome `{Hashlib} `{Datetime} `{Random} `{Json}
    (name d : string) (level : Privilege.PrivilegeLevel) (w : world layer) :
  let sid := id_at name (clock w) in
  let mid := PrivilegeProps.model_id_at name (1 + clock w) in
  Privilege.model_registry (privilege_system (store w)) !! mid = None ->
  specialists (store w) !! sid = None ->
  exists w',
    create_specialist name (Some d) level w = (Return sid, w') /\
    dict_get sid (active_specialists (store w'))
    = Some {| id := sid; spec_name := name; spec_domain := Some d;
              patterns := _get_domain_patterns (Some d); model_id := mid;
              spec_privilege_level := level |} /\
    (exists row, specialists (store w') !! sid = Some row /\
                 row_domain row = d /\
                 row_patterns row = _get_domain_patterns (Some d) /\
                 compression_ratio row = 1000%Q /\ row_is_active row = true) /\
    PrivilegeProps.active_row (privilege_system (store w')) mid
    = Some (PrivilegeProps.registered_row name level "sakana_intelligence"
              (1 + clock w)) /\
    (forall t, t_domain t = Some d ->
       exists found, _find_or_create_specialist t w' = (Return found, w')) /\
    (forall t, fst (train_specialist_on_task sid t w')
               = Raise PrivilegeProps.upsert_rejected).
Proof.
  intros sid mid Hmid Hsid.
  eexists. split; [apply (create_specialist_fresh name d level w Hmid Hsid) |].
  fold sid mid. cbn [store active_specialists specialists privilege_system].
  assert (Hrow : PrivilegeProps.active_row
                   (with_identity name level (1 + clock w)
                      (privilege_system (store w))) mid
                 = Some (PrivilegeProps.registered_row name level
                           "sakana_intelligence" (1 + clock w))).
  { unfold PrivilegeProps.active_row, with_identity.
    cbn [Privilege.model_registry]. fold mid. rewrite lookup_insert_eq.
    reflexivity. }
  split_and!.
  - apply dict_get_set.
  - eexists. split; [apply lookup_insert_eq |]. cbn. auto.
  - exact Hrow.
  - intros t Ht. unfold _find_or_create_specialist, bind, gets. cbn [fst snd store
      active_specialists].
    set (spec := {| id := sid; spec_name := name; spec_domain := Some d;
                    patterns := _get_domain_patterns (Some d); model_id := mid;
                    spec_privilege_level := level |}).
    destruct (find_some_of
                (fun e => option_string_eqb (spec_domain (snd e)) (t_domain t))
                (dict_set sid spec (active_specialists (store w))) (sid, spec))
      as [[found s] Hfound].
    + apply dict_set_in.
    + rewrite Ht. cbn. apply String.eqb_refl.
    + rewrite Hfound. exists found. reflexivity.
  - intros t. rewrite train_outcome.
    cbn [store active_specialists privilege_system].
    rewrite dict_get_set. cbn [model_id]. rewrite Hrow. reflexivity.
Qed.

Lemma create_specialist_outcome_witness :
  exists w',
    @create_specialist PrivilegeProps.sample_hashlib
      PrivilegeProps.sample_datetime "inventory_optimizer"
      (Some "optimization") Privilege.TRAINING (World 0 0 new_layer)
    = (Return "inventory_optimi", w') /\
    fst (@train_specialist_on_task PrivilegeProps.sample_hashlib
           PrivilegeProps.sample_datetime sample_random sample_json
           "inventory_optimi" (task_of_row undirected_row) w')
    = Raise PrivilegeProps.upsert_rejected.
Proof.
  destruct (@create_specialist_outcome PrivilegeProps.sample_hashlib
              PrivilegeProps.sample_datetime sample_random sample_json
              "inventory_optimizer" "optimization" Privilege.TRAINING
              (World 0 0 new_layer))
    as (w' & Hcreate & _ & _ & _ & _ & Htrain);
    [reflexivity | reflexivity |].
  exists w'. split; [exact Hcreate | apply Htrain].
Defined.

(** ** A task without a domain *)

(** X27: A pending task without a domain stops the queue.  When it is the
    first task selected and no active specialist lacks a domain,
    [process_queue] raises [sqlite3.IntegrityError] from
    [create_specialist]: no row of the queue is updated, so the task
    stays pending, and no specialist is added; but if the generated
    privilege id was free, a privilege identity named
    "None_specialist_<n>" has been registered. *)
Theorem task_without_domain_aborts_queue
    `{Hashlib} `{Datetime} `{Random} `{Json}
    (r : task_row) (rest : list task_row) (w : world layer) :
  select_pending (task_queue (store w)) = r :: rest ->
  domain r = None ->
  (forall e, In e (active_specialists (store w)) -> spec_domain (snd e) <> None) ->
  let name := "None_specialist_"
              +:+ pretty (length (active_specialists (store w))) in
  exists msg w',
    process_queue w = (Raise (IntegrityError msg), w') /\
    same_tables (store w) (store w') /\
    (Privilege.model_registry (privilege_system (store w))
       !! PrivilegeProps.model_id_at name (1 + clock w) = None ->
     privilege_system (store w')
     = with_identity name Privilege.TRAINING (1 + clock w)
         (privilege_system (store w))).
Proof.
  intros Hselected Hdomain Hactive name.
  destruct (create_specialist_without_domain name Privilege.TRAINING w)
    as (msg & w' & Hcreate & Htables & Hidentity).
  exists msg, w'. split; [| split; assumption].
  unfold process_queue, bind at 1. unfold gets at 1. cbn [fst snd].
  rewrite Hselected. cbn [for_each]. unfold bind at 1.
  unfold process_task. cbv zeta. unfold bind at 1.
  unfold _find_or_create_specialist. unfold bind at 1. unfold gets at 1.
  cbn [fst snd t_domain task_of_row]. rewrite Hdomain.
  rewrite find_none_of.
  - cbn [str_option].
    replace ("None" +:+ "_specialist_"
             +:+ pretty (length (active_specialists (store w))))
      with name by reflexivity.
    rewrite Hcreate. reflexivity.
  - intros e He. specialize (Hactive e He).
    destruct (spec_domain (snd e)); [reflexivity | contradiction].
Qed.

Lemma task_without_domain_aborts_queue_witness :
  exists msg w',
    @process_queue PrivilegeProps.sample_hashlib PrivilegeProps.sample_datetime
      sample_random sample_json undirected_world
    = (Raise (IntegrityError msg), w') /\
    task_queue (store w') = [undirected_row] /\
    is_Some (Privilege.model_registry (privilege_system (store w'))
               !! "None_special").
Proof.
  destruct (@task_without_domain_aborts_queue PrivilegeProps.sample_hashlib
              PrivilegeProps.sample_datetime sample_random sample_json
              undirected_row [] undirected_world)
    as (msg & w' & Hrun & (_ & _ & _ & Hqueue) & Hidentity);
    [reflexivity | reflexivity | intros e [] |].
  exists msg, w'. split; [exact Hrun |]. split; [exact Hqueue |].
  rewrite Hidentity by reflexivity. vm_compute. eauto.
Defined.

(** ** What a pass over the queue touches *)

Section Pass.
Context `{Hashlib} `{Datetime} `{Random} `{Json}.

Lemma find_or_create_queue (t : task) (w : world layer) :
  task_queue (store (snd (_find_or_create_specialist t w)))
  = task_queue (store w).
Proof.
  unfold _find_or_create_specialist, bind, gets. cbn [fst snd].
  destruct (List.find _ (active_specialists (store w))) as [[found s] |].
  - reflexivity.
  - apply create_specialist_queue.
Qed.

Lemma untouched_refl (ids : list string) (rows : list task_row) :
  untouched ids rows rows.
Proof. intros i row Hi _. exact Hi. Qed.

Lemma untouched_step (id_ : string) (ids : list string)
    (f : task_row -> task_row) (rows rows' : list task_row) :
  untouched ids
    (map (fun row => if String.eqb (task_id row) id_ then f row else row) rows)
    rows' ->
  untouched (id_ :: ids) rows rows'.
Proof.
  intros Hrest i row Hi Hnot. apply Hrest.
  - change (map ?g ?l) with (g <$> l). rewrite list_lookup_fmap, Hi. cbn.
    destruct (String.eqb_spec (task_id row) id_) as [Heq | _]; [| reflexivity].
    exfalso. apply Hnot. left. symmetry. exact Heq.
  - intros Hin. apply Hnot. right. exact Hin.
Qed.

Lemma process_task_queue (r : task_row) (w : world layer) :
  match fst (process_task r w) with
  | Return _ =>
      exists f,
        task_queue (store (snd (process_task r w)))
        = map (fun row => if String.eqb (task_id row) (task_id r)
                          then f row else row)
              (task_queue (store w))
  | Raise _ =>
      task_queue (store (snd (process_task r w))) = task_queue (store w)
  end.
Proof.
  unfold process_task. cbv zeta. unfold bind.
  pose proof (find_or_create_queue (task_of_row r) w) as Hfind.
  destruct (_find_or_create_specialist (task_of_row r) w) as [[sid | e] w1];
    cbn [fst snd] in *; [| exact Hfind].
  rewrite train_outcome.
  destruct (dict_get sid (active_specialists (store w1))) as [s |].
  - destruct (PrivilegeProps.active_row _ _).
    + cbn [fst snd store]. exact Hfind.
    + cbn [fst snd]. eexists. unfold _update_task_status, bind, now, modify.
      cbn [fst snd store with_tasks task_queue clock]. rewrite Hfind.
      reflexivity.
  - cbn [fst snd]. eexists. unfold _update_task_status, bind, now, modify.
    cbn [fst snd store with_tasks task_queue clock]. rewrite Hfind.
    reflexivity.
Qed.

Lemma for_each_untouched (tasks : list task_row) (w : world layer) :
  untouched (map task_id tasks) (task_queue (store w))
    (task_queue (store (snd (for_each tasks process_task w)))).
Proof.
  revert w. induction tasks as [| r tasks IH]; intros w.
  - apply untouched_refl.
  - cbn [for_each map]. unfold bind.
    pose proof (process_task_queue r w) as Hstep.
    destruct (process_task r w) as [[[] | e] w1]; cbn [fst snd] in *.
    + destruct Hstep as [f Hstep]. apply (untouched_step _ _ f).
      rewrite <- Hstep. apply IH.
    + rewrite Hstep. apply untouched_refl.
Qed.

End Pass.

(** X28: [process_queue] works on pending rows only.  With the task ids
    distinct, as the primary key makes them, every row that is not
    pending when the pass starts (assigned, completed, or of any other
    status) is the same row at the same place when the pass ends,
    whether the pass returns or raises. *)
Theorem process_queue_touches_pending_only
    `{Hashlib} `{Datetime} `{Random} `{Json}
    (w : world layer) (i : nat) (row : task_row) :
  List.NoDup (map task_id (task_queue (store w))) ->
  task_queue (store w) !! i = Some row ->
  status row <> "pending" ->
  task_queue (store (snd (process_queue w))) !! i = Some row.
Proof.
  intros Hids Hi Hstatus.
  unfold process_queue, bind at 1. unfold gets at 1. cbn [fst snd].
  apply (for_each_untouched (select_pending (task_queue (store w))) w i row Hi).
  intros Hin. apply in_map_iff in Hin. destruct Hin as (other & Hsame & Hother).
  unfold select_pending in Hother.
  apply (Permutation_in _
           (Permutation_sym (QueueFacts.order_by_permutation _ _))) in Hother.
  apply filter_In in Hother. destruct Hother as [Hother Hpending].
  apply String.eqb_eq in Hpending.
  apply list_elem_of_In, list_elem_of_lookup in Hother.
  destruct Hother as [j Hj].
  assert (Hij : i = j).
  { apply (NoDup_lookup (map task_id (task_queue (store w))) i j (task_id row)).
    - apply NoDup_ListNoDup, Hids.
    - change (map ?g ?l) with (g <$> l). rewrite list_lookup_fmap, Hi. reflexivity.
    - change (map ?g ?l) with (g <$> l). rewrite list_lookup_fmap, Hj. cbn.
      congruence. }
  subst j. congruence.
Qed.

Lemma process_queue_touches_pending_only_witness :
  task_queue
    (store (snd (@process_queue PrivilegeProps.sample_hashlib
                   PrivilegeProps.sample_datetime sample_random sample_json
                   half_assigned_world))) !! 0
  = Some (assigned "s1" (pending_row "t1" "Optimize stock levels" "high" 8)).
Proof.
  apply (@process_queue_touches_pending_only PrivilegeProps.sample_hashlib
           PrivilegeProps.sample_datetime sample_random sample_json
           half_assigned_world 0).
  - cbn. repeat constructor; cbn; intros Hin;
      repeat (destruct Hin as [Hin | Hin]; [discriminate |]); exact Hin.
  - reflexivity.
  - discriminate.
Defined.

(** ** Submitting a task for a domain that has a specialist *)

(** X29: A task submitted for a non-empty domain that already has an active
    specialist is stored as "assigned" to the first specialist of that
    domain with the most patterns, not as "pending": the selection of
    [process_queue] is the same after the submission as before, so the
    pass never trains on this task. *)
Theorem add_task_auto_assigned `{Hashlib} `{Datetime}
    (text d prio : string) (w : world layer) :
  let task_id_ := id_at text (clock w) in
  List.find (fun r => String.eqb (task_id r) task_id_) (task_queue (store w))
  = None ->
  d <> "" ->
  of_domain d (active_specialists (store w)) <> [] ->
  (forall e, In e (active_specialists (store w)) -> fst e <> "") ->
  exists i best w',
    add_task_to_queue text (Some d) prio w = (Return task_id_, w') /\
    first_greatest (of_domain d (active_specialists (store w))) i best /\
    task_queue (store w')
    = task_queue (store w) ++
      [{| task_id := task_id_; description := text; domain := Some d;
          priority := prio; status := "assigned";
          assigned_to := Some (fst best); created_at := 1 + clock w;
          completed_at := None; result := None |}] /\
    select_pending (task_queue (store w')) = select_pending (task_queue (store w)).
Proof.
  intros task_id_ Hfree Hd Hsome Hids.
  destruct (of_domain d (active_specialists (store w))) as [| c cs] eqn:Hdomain;
    [contradiction |].
  destruct (most_patterns_spec c cs) as [i Hbest].
  set (best := most_patterns c cs) in *.
  assert (Hbest_id : String.eqb (fst best) "" = false).
  { apply String.eqb_neq, Hids.
    destruct Hbest as [Hi _].
    assert (Hin : In best (of_domain d (active_specialists (store w)))).
    { rewrite Hdomain. apply list_elem_of_In, list_elem_of_lookup. eauto. }
    apply filter_In in Hin. apply Hin. }
  set (new := {| task_id := task_id_; description := text; domain := Some d;
                 priority := prio; status := "pending"; assigned_to := None;
                 created_at := S (clock w); completed_at := None;
                 result := None |}).
  exists i, best.
  eexists. split; [| split; [exact Hbest | split]].
  - unfold add_task_to_queue, _generate_id, bind at 1 2 3 4.
    unfold now, gets, ret. cbn [fst snd clock draws store].
    fold (id_at text (clock w)). fold task_id_. rewrite Hfree.
    unfold bind at 1. unfold modify at 1. cbn [fst snd clock draws store].
    unfold bind at 1. unfold _auto_assign_task. unfold bind at 1.
    unfold gets at 1. cbn [fst snd store with_tasks task_queue].
    fold new. rewrite (QueueFacts.find_last task_id_ _ new Hfree eq_refl).
    cbn [domain new]. apply String.eqb_neq in Hd. rewrite Hd.
    unfold bind at 1. unfold _find_best_specialist, bind at 1. unfold gets at 1.
    cbn [fst snd store active_specialists with_tasks].
    fold (of_domain d (active_specialists (store w))). rewrite Hdomain.
    unfold ret at 1. fold best. rewrite Hbest_id.
    unfold modify, ret. cbn [fst snd clock draws store]. reflexivity.
  - cbn [store with_tasks task_queue]. fold task_id_. fold new.
    rewrite map_app, (QueueFacts.find_none_map_id _ _ _ Hfree). cbn [map].
    cbn [task_id new]. rewrite String.eqb_refl. reflexivity.
  - cbn [store with_tasks task_queue]. fold task_id_. fold new.
    rewrite map_app, (QueueFacts.find_none_map_id _ _ _ Hfree). cbn [map].
    cbn [task_id new]. rewrite String.eqb_refl.
    unfold select_pending. rewrite List.filter_app. cbn.
    rewrite app_nil_r. reflexivity.
Qed.

Lemma add_task_auto_assigned_witness :
  exists w',
    @add_task_to_queue PrivilegeProps.sample_hashlib
      PrivilegeProps.sample_datetime "Optimize loads" (Some "optimization")
      "high" denied_world
    = (Return "Optimize loads_1", w') /\
    map (fun row => (task_id row, status row, assigned_to row))
        (task_queue (store w'))
    = [("t1", "pending", None); ("t2", "pending", None);
       ("Optimize loads_1", "assigned", Some "s1")].
Proof.
  destruct (@add_task_auto_assigned PrivilegeProps.sample_hashlib
              PrivilegeProps.sample_datetime "Optimize loads" "optimization"
              "high" denied_world)
    as (i & best & w' & Hadd & _ & _ & _).
  - reflexivity.
  - discriminate.
  - discriminate.
  - intros e [<- | []]. discriminate.
  - exists w'. split; [exact Hadd |].
    vm_compute in Hadd. injection Hadd as <-. reflexivity.
Defined.

(** ** Discovering the patterns of a task *)

(** X30: [_discover_task_patterns] always returns and changes neither the
    layer nor the clock; it takes one random draw, and two more when the
    first exceeds 0.7.  It returns at most four patterns, their names
    are pairwise distinct, each has a confidence and a formula, and
    without the novel pattern every name is one of the three keyword
    patterns.  The domain argument has no influence. *)
Theorem discover_task_patterns_shape `{Random}
    (t : task) (dom : option string) (w : world layer) :
  let novel := Qgtb (random_random (draws w)) (7 # 10) in
  exists found,
    _discover_task_patterns t dom w
    = (Return found,
       World (clock w) ((if novel then 3 else 1) + draws w) (store w)) /\
    _discover_task_patterns t None w = _discover_task_patterns t dom w /\
    length found <= 4 /\
    List.NoDup (map name found) /\
    Forall (fun p => is_Some (confidence p) /\ is_Some (formula p)) found /\
    (novel = false ->
     Forall (fun p => In (name p) ["optimization_pattern"; "time_series_pattern";
                                   "clustering_pattern"]) found).
Proof.
  intros novel. unfold _discover_task_patterns. cbv zeta.
  unfold bind at 1. unfold next_draw at 1. cbn [fst snd clock draws store].
  fold novel.
  destruct (contains "optimize" (lower (t_description t))
            || contains "maximize" (lower (t_description t)));
    destruct (contains "predict" (lower (t_description t))
              || contains "forecast" (lower (t_description t)));
    destruct (contains "classify" (lower (t_description t))
              || contains "categorize" (lower (t_description t)));
    destruct novel;
    (eexists; split; [reflexivity |]; split; [reflexivity |];
     split; [cbn; lia |]; split;
     [ cbn; repeat (constructor; [cbn; intros Hin;
         repeat (destruct Hin as [Hin | Hin]; [discriminate Hin |]);
         exact Hin |]); constructor
     | split;
       [ repeat (constructor; [cbn; split; eauto |]); constructor
       | intros Hnovel; try discriminate Hnovel;
         repeat (constructor; [cbn; tauto |]); constructor ] ]).
Qed.

End LayerFacts.
